(** * The streak / cycle consistency engine of the KN0X-FIT log backend

    A shallow embedding of [src/models/user.py], [src/routes/consistency.py]
    and [src/services/notification_service.py], and the properties of the
    streak calculator, the 30-day cycle manager, the aggregators, the
    motivational message selector and the reminder sweeps.

    Conventions of the embedding.
    - A Python [int] is a [Z].  A [datetime.date] is the [Z] of its
      proleptic Gregorian ordinal ([date.toordinal()]); [d - timedelta(days=k)]
      is [d - k] and [(a - b).days] is [a - b].  The range limits of
      [datetime.date] (years 1 to 9999) are not part of the model.
    - The table behind [ConsistencyRecord.query] is the list of its rows in
      primary-key order.  A query without [order_by] yields rows in that
      order, so [.first()] is the first matching row of the list.
    - An ORM object is a row of the table: a handler that holds a record
      holds its position in the list, and an attribute assignment is an
      update of the list at that position.
    - [date.today()] is an argument [today] of every function that reads the
      clock. *)

From Stdlib Require Import ZArith Lia SpecFloat.
From stdpp Require Import base tactics option list sorting strings pretty gmap.

Local Open Scope Z_scope.

(** ** Data model ([src/models/user.py]) *)

Abbreviation Date := Z (only parsing).

Record User := mkUser {
  u_id : Z;
  username : string;
  email : string;
  is_active : bool
}.

(** [ConsistencyRecord]: [workout_logged], [diet_logged] and [streak_day]
    carry the column defaults [False], [False] and [0]; [cycle_start] is
    nullable.  The primary key [id] is named [record_id] here. *)
Record ConsistencyRecord := mkRecord {
  record_id : Z;
  user_id : Z;
  date : Date;
  workout_logged : bool;
  diet_logged : bool;
  streak_day : Z;
  cycle_start : option Date
}.

Abbreviation Table := (list ConsistencyRecord) (only parsing).

Definition set_workout_logged (v : bool) (r : ConsistencyRecord) : ConsistencyRecord :=
  mkRecord (record_id r) (user_id r) (date r) v (diet_logged r)
           (streak_day r) (cycle_start r).

Definition set_diet_logged (v : bool) (r : ConsistencyRecord) : ConsistencyRecord :=
  mkRecord (record_id r) (user_id r) (date r) (workout_logged r) v
           (streak_day r) (cycle_start r).

Definition set_streak_day (v : Z) (r : ConsistencyRecord) : ConsistencyRecord :=
  mkRecord (record_id r) (user_id r) (date r) (workout_logged r) (diet_logged r)
           v (cycle_start r).

Definition set_cycle_start (v : option Date) (r : ConsistencyRecord) : ConsistencyRecord :=
  mkRecord (record_id r) (user_id r) (date r) (workout_logged r) (diet_logged r)
           (streak_day r) v.

(** ** Queries *)

(** [filter_by(user_id=uid, date=d)] *)
Definition by_user_date (uid : Z) (d : Date) (r : ConsistencyRecord) : Prop :=
  user_id r = uid ∧ date r = d.

(** [filter_by(user_id=uid)] *)
Definition by_user (uid : Z) (r : ConsistencyRecord) : Prop := user_id r = uid.

(** [filter(user_id == uid, date >= start, date <= end)] *)
Definition by_user_range (uid : Z) (start_date end_date : Date)
    (r : ConsistencyRecord) : Prop :=
  user_id r = uid ∧ start_date ≤ date r ∧ date r ≤ end_date.

#[global] Instance by_user_date_dec uid d r : Decision (by_user_date uid d r).
Proof. unfold by_user_date. apply _. Defined.
#[global] Instance by_user_dec uid r : Decision (by_user uid r).
Proof. unfold by_user. apply _. Defined.
#[global] Instance by_user_range_dec uid s e r : Decision (by_user_range uid s e r).
Proof. unfold by_user_range. apply _. Defined.

(** [query.filter_by(user_id=uid, date=d).first()]: the first matching row,
    with its position in the table. *)
Definition query_day (tbl : Table) (uid : Z) (d : Date)
    : option (nat * ConsistencyRecord) :=
  list_find (by_user_date uid d) tbl.

(** [order_by(ConsistencyRecord.date.asc())] and [.desc()].  Rows of equal
    date come in the order the merge sort leaves them; SQL promises none. *)
Definition date_asc (r1 r2 : ConsistencyRecord) : Prop := date r1 ≤ date r2.
Definition date_desc (r1 r2 : ConsistencyRecord) : Prop := date r2 ≤ date r1.

#[global] Instance date_asc_dec r1 r2 : Decision (date_asc r1 r2).
Proof. unfold date_asc. apply _. Defined.
#[global] Instance date_desc_dec r1 r2 : Decision (date_desc r1 r2).
Proof. unfold date_desc. apply _. Defined.

(** [query.filter_by(user_id=uid).order_by(date.desc()).first()] *)
Definition query_latest (tbl : Table) (uid : Z) : option ConsistencyRecord :=
  head (merge_sort date_desc (filter (by_user uid) tbl)).

(** [query.filter_by(user_id=uid).order_by(date.asc()).all()] *)
Definition query_all_asc (tbl : Table) (uid : Z) : list ConsistencyRecord :=
  merge_sort date_asc (filter (by_user uid) tbl).

(** [query.filter(user_id == uid, date >= start, date <= end)
         .order_by(date.asc()).all()] *)
Definition query_range_asc (tbl : Table) (uid : Z) (start_date end_date : Date)
    : list ConsistencyRecord :=
  merge_sort date_asc (filter (by_user_range uid start_date end_date) tbl).

(** The same range query without [order_by] (the weekly motivation job). *)
Definition query_range (tbl : Table) (uid : Z) (start_date end_date : Date)
    : list ConsistencyRecord :=
  filter (by_user_range uid start_date end_date) tbl.

(** ** StreakCalculator: [calculate_streak] ([src/routes/consistency.py]) *)

(** [record and (record.workout_logged or record.diet_logged)] *)
Definition active (r : ConsistencyRecord) : bool :=
  workout_logged r || diet_logged r.

(** The body of [while True]: one query per iteration.  [fuel] bounds the
    number of iterations; [None] is a loop that has not ended within it. *)
Fixpoint calculate_streak_loop (fuel : nat) (tbl : Table) (uid : Z)
    (check_date : Date) (current_streak : Z) : option Z :=
  match fuel with
  | O => None
  | S fuel' =>
      match query_day tbl uid check_date with
      | Some (_, record) =>
          if active record
          then calculate_streak_loop fuel' tbl uid (check_date - 1) (current_streak + 1)
          else Some current_streak
      | None => Some current_streak
      end
  end.

(** [calculate_streak(user_id)], with the clock read as [today].  Every
    iteration but the last consumes a row of the table, so one more
    iteration than the table has rows always ends the loop
    ([calculate_streak_loop_ends]). *)
Definition calculate_streak (tbl : Table) (uid : Z) (today : Date) : option Z :=
  calculate_streak_loop (S (length tbl)) tbl uid (today - 1) 0.

(** The day [d] counts toward the streak of [uid]: the row the walk fetches
    for it exists and has one of the flags set. *)
Definition day_active (tbl : Table) (uid : Z) (d : Date) : bool :=
  match query_day tbl uid d with
  | Some (_, record) => active record
  | None => false
  end.

(** ** CycleManager: [get_or_create_consistency_record] *)

(** The primary key the table gives to the next inserted row. *)
Definition next_id (tbl : Table) : Z := 1 + foldr Z.max 0 (record_id <$> tbl).

(** Returns the record with its position in the table, and the table, which
    has the new row at its end when the record was created
    ([db.session.add]).  The new row carries the column defaults. *)
Definition get_or_create_consistency_record (tbl : Table) (uid : Z)
    (target_date : Date) : nat * ConsistencyRecord * Table :=
  match query_day tbl uid target_date with
  | Some (i, record) => (i, record, tbl)
  | None =>
      let latest_record := query_latest tbl uid in
      let new_cycle_start :=
        match latest_record with
        | Some latest =>
            match cycle_start latest with
            | Some latest_cycle_start =>
                let days_since_cycle_start := target_date - latest_cycle_start in
                if bool_decide (days_since_cycle_start < 30)
                then latest_cycle_start
                else target_date
            | None => target_date
            end
        | None => target_date
        end in
      let record :=
        mkRecord (next_id tbl) uid target_date false false 0 (Some new_cycle_start) in
      (length tbl, record, tbl ++ [record])
  end.

(** [record.attr = v] on the record held at position [i]: the assignment
    [set] changes the row of the table and the value the handler holds. *)
Definition assign (set : ConsistencyRecord → ConsistencyRecord)
    (h : nat * ConsistencyRecord * Table) : nat * ConsistencyRecord * Table :=
  let '(i, record, tbl) := h in
  (i, set record, <[i := set record]> tbl).

(** [reset_cycle]: [record.cycle_start = today] on today's record. *)
Definition reset_cycle (tbl : Table) (uid : Z) (today : Date) : Date * Table :=
  let '(_, _, tbl1) :=
    assign (set_cycle_start (Some today))
           (get_or_create_consistency_record tbl uid today) in
  (today, tbl1).

(** ** Exceptions and numbers *)

Inductive Exception :=
  | ZeroDivisionError
  | IndexError
  | DatabaseError (msg : string).

(** [str(e)] *)
Definition exception_str (e : Exception) : string :=
  match e with
  | ZeroDivisionError => "division by zero"
  | IndexError => "Cannot choose from an empty sequence"
  | DatabaseError msg => msg
  end.

(** The outcome of an expression that may raise. *)
Inductive result (A : Type) :=
  | Returns (a : A)
  | Raises (e : Exception).
Arguments Returns {A} a.
Arguments Raises {A} e.

#[global] Instance result_ret : MRet result := λ A a, Returns a.
#[global] Instance result_bind : MBind result := λ A B f m,
  match m with
  | Returns a => f a
  | Raises e => Raises e
  end.

(** A Python [float] is an IEEE 754 binary64 number. *)
Definition prec : Z := 53.
Definition emax : Z := 1024.

(** [float(n)], exact for [|n| < 2^53]. *)
Definition float_of_int (n : Z) : spec_float := binary_normalize prec emax n 0 false.

(** [a / b] on two ints.  Python rounds the exact quotient once; for
    operands below [2^53], the counts this program divides, that is the
    quotient of the two floats. *)
Definition truediv (a b : Z) : result spec_float :=
  if bool_decide (b = 0) then Raises ZeroDivisionError
  else Returns (SFdiv prec emax (float_of_int a) (float_of_int b)).

(** [x * n] for a float [x] and an int [n]. *)
Definition float_mul_int (x : spec_float) (n : Z) : spec_float :=
  SFmul prec emax x (float_of_int n).

(** [round(x, 1)] on a float: the decimal with one fractional digit nearest
    to the exact value of [x] (ties to the even digit), then the float
    nearest to that decimal.  [t] below is that decimal times ten.  From
    exponent [-3] on the spacing of floats exceeds a tenth and [x] is its
    own result; below it [t < 2^53] and the division rounds [t / 10] once. *)
Definition float_round1 (x : spec_float) : spec_float :=
  match x with
  | S754_finite s m e =>
      if bool_decide (-3 ≤ e) then x
      else
        let num := Z.pos m * 10 in
        let den := 2 ^ (- e) in
        let q := num `div` den in
        let r := num `mod` den in
        let t := if bool_decide (2 * r < den) then q
                 else if bool_decide (den < 2 * r) then q + 1
                 else if Z.even q then q else q + 1 in
        SFdiv prec emax
          (binary_normalize prec emax (if s then - t else t) 0 s)
          (float_of_int 10)
  | _ => x
  end.

(** A number of the JSON payloads: [round] of an int is the int. *)
Inductive number :=
  | Int (n : Z)
  | Float (x : spec_float).

(** [round(v, 1)] *)
Definition round1 (v : number) : number :=
  match v with
  | Int n => Int n
  | Float x => Float (float_round1 x)
  end.

(** [count / total * 100] *)
Definition ratio_percent (count total : Z) : result number :=
  q ← truediv count total; mret (Float (float_mul_int q 100)).

(** ** MotivationSelector: [get_motivational_message] *)

(** [random.choice(seq)] is [seq[randbelow(len(seq))]]: [rand] is the number
    the random source supplies, reduced modulo the length.  An empty
    sequence raises [IndexError]. *)
Definition random_choice {A : Type} (rand : nat) (seq : list A) : result A :=
  match seq !! Nat.modulo rand (length seq) with
  | Some x => Returns x
  | None => Raises IndexError
  end.

Definition missed_messages : list string := [
  "Don't let yesterday's miss define today's success! ðŸ’ª";
  "Every champion has setbacks. What matters is the comeback! ðŸ”¥";
  "Your journey continues today. Let's get back on track! ðŸš€";
  "One missed day doesn't erase your progress. Keep going! âš¡";
  "The best time to restart is now. You've got this! ðŸŒŸ";
  "Consistency isn't perfection. It's persistence! ðŸ’¯";
  "Your future self is counting on today's effort! ðŸŽ¯";
  "Small steps today, big results tomorrow! ðŸ“ˆ";
  "Turn today's motivation into tomorrow's habit! âœ¨";
  "Progress over perfection, always! ðŸ™Œ"
]%string.

(** [streak] is formatted in decimal as the f-strings do. *)
Definition get_motivational_message (rand : nat) (streak : Z) (missed_days : Z)
    : result string :=
  if bool_decide (missed_days > 0) then random_choice rand missed_messages
  else if bool_decide (streak = 0) then
    Returns "Ready to start your fitness journey? Every expert was once a beginner! ðŸš€"%string
  else if bool_decide (streak = 1) then
    Returns "Great start! Day 1 is complete. Momentum is building! ðŸ”¥"%string
  else if bool_decide (streak < 7) then
    Returns ("Amazing! " +:+ pretty streak +:+ " days strong! You're building an incredible habit! ðŸ’ª")%string
  else if bool_decide (streak < 14) then
    Returns ("Fantastic " +:+ pretty streak +:+ "-day streak! You're in the zone! ðŸŒŸ")%string
  else if bool_decide (streak < 21) then
    Returns ("Outstanding " +:+ pretty streak +:+ " days! You're forming a powerful habit! âš¡")%string
  else if bool_decide (streak < 30) then
    Returns ("Incredible " +:+ pretty streak +:+ "-day streak! You're a consistency champion! ðŸ†")%string
  else
    Returns ("Legendary " +:+ pretty streak +:+ "-day streak! You're an inspiration! ðŸ‘‘")%string.

(** ** Route handlers ([src/routes/consistency.py]) *)

(** What a handler answers: the JSON body with status 200, or an error
    message with status 400 or 500. *)
Inductive Response (A : Type) :=
  | Ok200 (body : A)
  | Error400 (error : string)
  | Error500 (error : string).
Arguments Ok200 {A} body.
Arguments Error400 {A} error.
Arguments Error500 {A} error.

(** [try: ... except Exception as e: return {'error': f'{prefix}: {str(e)}'}, 500] *)
Definition respond {A : Type} (prefix : string) (body : result A) : Response A :=
  match body with
  | Returns a => Ok200 a
  | Raises e => Error500 (prefix +:+ ": " +:+ exception_str e)
  end.

(** *** ConsistencyAggregator: [get_consistency_data] *)

Record Statistics := mkStatistics {
  stat_current_streak : Z;
  total_days : Z;
  workout_days : Z;
  diet_days : Z;
  both_logged_days : Z;
  workout_percentage : number;
  diet_percentage : number;
  completion_percentage : number
}.

Record CycleInfo := mkCycleInfo {
  info_cycle_start : option Date;
  cycle_day : Z;
  days_remaining : Z
}.

Record TodayStatus := mkTodayStatus {
  today_workout_logged : bool;
  today_diet_logged : bool;
  today_both_complete : bool
}.

Record ConsistencyData := mkConsistencyData {
  data_records : list ConsistencyRecord;
  statistics : Statistics;
  cycle_info : CycleInfo;
  today_status : TodayStatus;
  data_motivational_message : string
}.

(** [len([r for r in records if p(r)])] *)
Definition count_where (p : ConsistencyRecord → bool)
    (records : list ConsistencyRecord) : Z :=
  Z.of_nat (length (filter (λ r, p r = true) records)).

(** [round((count / total_days * 100) if total_days > 0 else 0, 1)] *)
Definition guarded_percentage (count total_days : Z) : result number :=
  v ← (if bool_decide (total_days > 0) then ratio_percent count total_days
       else mret (Int 0));
  mret (round1 v).

(** The statistics over the records of the range. *)
Definition window_stats (records : list ConsistencyRecord) (current_streak : Z)
    : result Statistics :=
  let total_days := Z.of_nat (length records) in
  let workout_days := count_where workout_logged records in
  let diet_days := count_where diet_logged records in
  let both_logged_days :=
    count_where (λ r, workout_logged r && diet_logged r) records in
  workout_percentage ← guarded_percentage workout_days total_days;
  diet_percentage ← guarded_percentage diet_days total_days;
  completion_percentage ← guarded_percentage both_logged_days total_days;
  mret (mkStatistics current_streak total_days workout_days diet_days
          both_logged_days workout_percentage diet_percentage
          completion_percentage).

(** The cycle of the latest record, as of [end_date]. *)
Definition get_cycle_info (latest_record : option ConsistencyRecord)
    (end_date : Date) : CycleInfo :=
  let '(cycle_start_, cycle_day_) :=
    match latest_record with
    | Some latest =>
        match cycle_start latest with
        | Some start =>
            let cycle_day_ := end_date - start + 1 in
            (Some start, if bool_decide (cycle_day_ > 30) then 30 else cycle_day_)
        | None => (None, 0)
        end
    | None => (None, 0)
    end in
  mkCycleInfo cycle_start_ cycle_day_
    (if bool_decide (cycle_day_ > 0) then Z.max 0 (30 - cycle_day_) else 30).

Definition get_today_status (today_record : option ConsistencyRecord) : TodayStatus :=
  match today_record with
  | Some record =>
      mkTodayStatus (workout_logged record) (diet_logged record)
                    (workout_logged record && diet_logged record)
  | None => mkTodayStatus false false false
  end.

(** [get_consistency_data(current_user)]; [None] is a streak loop that has
    not ended. *)
Definition get_consistency_data (tbl : Table) (current_user : Z) (today : Date)
    (rand : nat) : option (Response ConsistencyData) :=
  let end_date := today in
  let start_date := end_date - 29 in
  let records := query_range_asc tbl current_user start_date end_date in
  current_streak ← calculate_streak tbl current_user today;
  let latest_record := query_latest tbl current_user in
  let today_record := snd <$> query_day tbl current_user end_date in
  Some (respond "Failed to fetch consistency data"
    (stats ← window_stats records current_streak;
     message ← get_motivational_message rand current_streak 0;
     mret (mkConsistencyData records stats
             (get_cycle_info latest_record end_date)
             (get_today_status today_record) message))).

(** *** [update_consistency] *)

Record UpdateBody := mkUpdateBody {
  update_message : string;
  update_record : ConsistencyRecord;
  update_both_complete : bool;
  update_motivational_message : string
}.

Definition double_quote : string := String (Ascii.ascii_of_nat 34) EmptyString.

(** [upload_type.title()] of the two accepted types. *)
Definition title (upload_type : string) : string :=
  if bool_decide (upload_type = "workout") then "Workout" else "Diet".

(** [update_consistency(current_user)] on a request that has both fields
    and whose [date] parses, to [target_date]; other requests are answered
    400 and never reach a record.  The result carries the table after the
    handler ([db.session.commit]). *)
Definition update_consistency (tbl : Table) (current_user : Z) (today : Date)
    (rand : nat) (target_date : Date) (upload_type : string)
    : option (Response UpdateBody * Table) :=
  if bool_decide (upload_type ∈ ["workout"; "diet"]) then
    let h0 := get_or_create_consistency_record tbl current_user target_date in
    let h1 :=
      if bool_decide (upload_type = "workout")
      then assign (set_workout_logged true) h0
      else assign (set_diet_logged true) h0 in
    streak ← calculate_streak h1.2 current_user today;
    let '(_, record, tbl') := assign (set_streak_day streak) h1 in
    let both_complete := workout_logged record && diet_logged record in
    Some (respond "Failed to update consistency"
            (message ← get_motivational_message rand (streak_day record) 0;
             mret (mkUpdateBody (title upload_type +:+ " logged successfully")
                     record both_complete message)),
          tbl')
  else
    Some (Error400 ("Type must be " +:+ double_quote +:+ "workout" +:+ double_quote
                    +:+ " or " +:+ double_quote +:+ "diet" +:+ double_quote),
          tbl).

(** *** [get_streak] *)

(** The loop over [records]: the pair is ([best_streak], [temp_streak]). *)
Definition best_streak_scan (records : list ConsistencyRecord) : Z * Z :=
  foldl (λ '(best_streak, temp_streak) record,
           if active record
           then (Z.max best_streak (temp_streak + 1), temp_streak + 1)
           else (best_streak, 0))
        (0, 0) records.

Definition best_streak (tbl : Table) (uid : Z) : Z :=
  (best_streak_scan (query_all_asc tbl uid)).1.



(** *** [get_weekly_summary] *)

Record DaySummary := mkDaySummary {
  summary_date : Date;
  day_name : string;
  summary_workout_logged : bool;
  summary_diet_logged : bool;
  summary_both_complete : bool
}.

Record WeeklyStats := mkWeeklyStats {
  weekly_workout_days : Z;
  weekly_diet_days : Z;
  complete_days : Z;
  weekly_workout_percentage : number;
  weekly_diet_percentage : number;
  weekly_completion_percentage : number
}.

Record WeeklySummary := mkWeeklySummary {
  daily_summary : list DaySummary;
  weekly_stats : WeeklyStats
}.

(** [check_date.strftime('%A')]: ordinal 1 is a Monday. *)
Definition weekday_name (d : Date) : string :=
  match (d + 6) `mod` 7 with
  | 0 => "Monday"
  | 1 => "Tuesday"
  | 2 => "Wednesday"
  | 3 => "Thursday"
  | 4 => "Friday"
  | 5 => "Saturday"
  | _ => "Sunday"
  end.

(** One entry of [daily_summary]; [summary_date] stands for its
    [isoformat()]. *)
Definition day_summary (records : list ConsistencyRecord) (check_date : Date)
    : DaySummary :=
  let record := snd <$> list_find (λ r, date r = check_date) records in
  match record with
  | Some r =>
      mkDaySummary check_date (weekday_name check_date) (workout_logged r)
                   (diet_logged r) (workout_logged r && diet_logged r)
  | None =>
      mkDaySummary check_date (weekday_name check_date) false false false
  end.

(** [for i in range(7)] *)
Definition build_daily_summary (records : list ConsistencyRecord)
    (start_date : Date) : list DaySummary :=
  (λ i, day_summary records (start_date + i)) <$> seqZ 0 7.

(** [len([d for d in daily_summary if d[key]])] *)
Definition count_days (key : DaySummary → bool) (days : list DaySummary) : Z :=
  Z.of_nat (length (filter (λ d, key d = true) days)).

(** [round((count / 7 * 100), 1)] *)
Definition weekly_percentage (count : Z) : result number :=
  v ← ratio_percent count 7; mret (round1 v).

Definition get_weekly_summary (tbl : Table) (current_user : Z) (today : Date)
    : Response WeeklySummary :=
  let end_date := today in
  let start_date := end_date - 6 in
  let records := query_range_asc tbl current_user start_date end_date in
  let days := build_daily_summary records start_date in
  let workout_days := count_days summary_workout_logged days in
  let diet_days := count_days summary_diet_logged days in
  let complete := count_days summary_both_complete days in
  respond "Failed to fetch weekly summary"
    (workout_pct ← weekly_percentage workout_days;
     diet_pct ← weekly_percentage diet_days;
     completion_pct ← weekly_percentage complete;
     mret (mkWeeklySummary days
             (mkWeeklyStats workout_days diet_days complete
                workout_pct diet_pct completion_pct))).

(** *** [check_missed_entries] *)





(** ** ReminderScheduler: the sweeps of [NotificationService]
       ([src/services/notification_service.py]) *)

Inductive LogEntry :=
  | INFO (msg : string)
  | ERROR (msg : string).

(** What a sweep reads and writes: the two tables, the clock, the lines the
    logger has written (oldest first), and how many queries and random
    numbers have been asked for so far. *)
Record World := mkWorld {
  db_users : list User;
  db_records : list ConsistencyRecord;
  clock : Date;
  log : list LogEntry;
  queries : nat;
  draws : nat
}.

(** How a statement ends: normally with a value, with a raised exception,
    or not within the iterations granted to a [while True]. *)
Inductive outcome (A : Type) :=
  | Done (a : A)
  | Failed (e : Exception)
  | Unfinished.
Arguments Done {A} a.
Arguments Failed {A} e.
Arguments Unfinished {A}.

Definition M (A : Type) : Type := World → outcome A * World.

#[global] Instance M_ret : MRet M := λ A a w, (Done a, w).
#[global] Instance M_bind : MBind M := λ A B f m w,
  match m w with
  | (Done a, w') => f a w'
  | (Failed e, w') => (Failed e, w')
  | (Unfinished, w') => (Unfinished, w')
  end.

(** [try: body except Exception as e: handler] *)
Definition try_except {A : Type} (body : M A) (handler : Exception → M A) : M A :=
  λ w, match body w with
       | (Failed e, w') => handler e w'
       | r => r
       end.

(** [for x in xs: body] *)
Fixpoint for_each {A : Type} (xs : list A) (body : A → M unit) : M unit :=
  match xs with
  | [] => mret tt
  | x :: xs' => body x;; for_each xs' body
  end.

Definition write_log (entry : LogEntry) : M unit :=
  λ w, (Done tt, mkWorld (db_users w) (db_records w) (clock w)
                         (log w ++ [entry]) (queries w) (draws w)).

Definition logger_info (msg : string) : M unit := write_log (INFO msg).
Definition logger_error (msg : string) : M unit := write_log (ERROR msg).

(** [date.today()] *)
Definition date_today : M Date := λ w, (Done (clock w), w).

Section NotificationService.

(** The environment of the service: [db_fault k] is the exception the
    database raises at the query number [k], if it raises one; [random k] is
    the number the random source gives at draw number [k]; [float_str] is
    [str] on a float. *)
Variable db_fault : nat → option Exception.
Variable random : nat → nat.
Variable float_str : spec_float → string.

(** A query: answered from the tables unless the database raises. *)
Definition db_query {A : Type} (q : World → A) : M A :=
  λ w, let w' := mkWorld (db_users w) (db_records w) (clock w) (log w)
                         (S (queries w)) (draws w) in
       match db_fault (queries w) with
       | Some e => (Failed e, w')
       | None => (Done (q w), w')
       end.

(** [random.choice(seq)] *)
Definition choose {A : Type} (seq : list A) : M A :=
  λ w, let w' := mkWorld (db_users w) (db_records w) (clock w) (log w)
                         (queries w) (S (draws w)) in
       match random_choice (random (draws w)) seq with
       | Returns x => (Done x, w')
       | Raises e => (Failed e, w')
       end.

(** [User.query.filter_by(is_active=True).all()] *)
Definition query_active_users : M (list User) :=
  db_query (λ w, filter (λ u, is_active u = true) (db_users w)).

(** [ConsistencyRecord.query.filter_by(user_id=uid, date=d).first()] *)
Definition query_record (uid : Z) (d : Date) : M (option ConsistencyRecord) :=
  db_query (λ w, snd <$> query_day (db_records w) uid d).

(** [NotificationService._calculate_streak]: the loop of
    [calculate_streak], one query per iteration. *)
Fixpoint _calculate_streak_loop (fuel : nat) (uid : Z) (check_date : Date)
    (current_streak : Z) : M Z :=
  match fuel with
  | O => λ w, (Unfinished, w)
  | S fuel' =>
      record ← query_record uid check_date;
      match record with
      | Some r =>
          if active r
          then _calculate_streak_loop fuel' uid (check_date - 1) (current_streak + 1)
          else mret current_streak
      | None => mret current_streak
      end
  end.

Definition _calculate_streak (uid : Z) : M Z :=
  λ w, (today ← date_today;
        _calculate_streak_loop (S (length (db_records w))) uid (today - 1) 0) w.

Definition _store_notification (uid : Z) (message notification_type : string)
    : M unit :=
  try_except
    (logger_info ("Stored notification for user " +:+ pretty uid +:+ ": " +:+ message))
    (λ e, logger_error ("Error storing notification: " +:+ exception_str e)).

Definition reminder_messages (user : User) (current_streak : Z)
    (missed_items : list string) : list string := [
  "Hey " +:+ username user +:+ "! Don't break your " +:+ pretty current_streak +:+ "-day streak! 💪";
  username user +:+ ", your fitness journey needs you today! 🔥";
  "Time to log your " +:+ String.concat " and " missed_items +:+ ", " +:+ username user +:+ "! 📱";
  "Champions like you don't skip days, " +:+ username user +:+ "! 🏆";
  "Your future self will thank you, " +:+ username user +:+ "! ⚡";
  "Consistency is your superpower, " +:+ username user +:+ "! 🌟";
  "Just a quick reminder, " +:+ username user +:+ " - log your progress! 📈";
  "You're doing amazing, " +:+ username user +:+ "! Don't stop now! 💯"
]%string.

(** The body of the [try] of [_send_reminder_notification]. *)
Definition reminder_body (user : User) (missed_workout missed_diet : bool)
    : M unit :=
  let missed_items :=
    (if missed_workout then ["workout"] else []) ++
    (if missed_diet then ["diet"] else []) in
  current_streak ← _calculate_streak (u_id user);
  message ← choose (reminder_messages user current_streak missed_items);
  logger_info ("NOTIFICATION for " +:+ email user +:+ ": " +:+ message);;
  _store_notification (u_id user) message "daily_reminder".

Definition _send_reminder_notification (user : User)
    (missed_workout missed_diet : bool) : M unit :=
  try_except (reminder_body user missed_workout missed_diet)
    (λ e, logger_error ("Error sending reminder to user " +:+ pretty (u_id user)
                        +:+ ": " +:+ exception_str e)).

(** The body of the [for user in users] of [send_daily_reminders], inside
    its [try]. *)
Definition check_user (today : Date) (user : User) : M unit :=
  today_record ← query_record (u_id user) today;
  let missed_workout :=
    negb (from_option workout_logged false today_record) in
  let missed_diet :=
    negb (from_option diet_logged false today_record) in
  if missed_workout || missed_diet
  then _send_reminder_notification user missed_workout missed_diet
  else mret tt.

(** One iteration of that [for]: the [try] and its [except]. *)
Definition daily_iteration (today : Date) (user : User) : M unit :=
  try_except (check_user today user)
    (λ e, logger_error ("Error checking user " +:+ pretty (u_id user)
                        +:+ ": " +:+ exception_str e)).

Definition send_daily_reminders : M unit :=
  try_except
    (logger_info "Checking for users who need daily reminders...";;
     today ← date_today;
     users ← query_active_users;
     for_each users (daily_iteration today))
    (λ e, logger_error ("Error in send_daily_reminders: " +:+ exception_str e)).

Definition weekly_messages (user : User) (completion_rate : spec_float)
    (complete : Z) : list string :=
  if SFleb (float_of_int 85) completion_rate then [
    "Outstanding week, " +:+ username user +:+ "! " +:+ float_str completion_rate +:+ "% completion rate! 🏆";
    "You're on fire, " +:+ username user +:+ "! " +:+ pretty complete +:+ "/7 days completed! 🔥";
    "Incredible consistency, " +:+ username user +:+ "! Keep it up! 🌟"
  ]%string
  else if SFleb (float_of_int 60) completion_rate then [
    "Great progress, " +:+ username user +:+ "! " +:+ float_str completion_rate +:+ "% this week! 💪";
    "You're building strong habits, " +:+ username user +:+ "! 📈";
    "Solid week, " +:+ username user +:+ "! Let's aim even higher! ⚡"
  ]%string
  else [
    "New week, fresh start, " +:+ username user +:+ "! You've got this! 🚀";
    "Every expert was once a beginner, " +:+ username user +:+ "! 💯";
    "This week is your comeback week, " +:+ username user +:+ "! 🌟"
  ]%string.

(** An expression that may raise, as a statement of the service. *)
Definition lift_result {A : Type} (r : result A) : M A :=
  λ w, match r with
       | Returns a => (Done a, w)
       | Raises e => (Failed e, w)
       end.

(** The body of the [try] of [_send_weekly_motivation_notification]. *)
Definition weekly_body (user : User) : M unit :=
  end_date ← date_today;
  let start_date := end_date - 6 in
  records ← db_query (λ w, query_range (db_records w) (u_id user) start_date end_date);
  let complete := count_where (λ r, workout_logged r && diet_logged r) records in
  q ← lift_result (truediv complete 7);
  let completion_rate := float_round1 (float_mul_int q 100) in
  message ← choose (weekly_messages user completion_rate complete);
  logger_info ("WEEKLY MOTIVATION for " +:+ email user +:+ ": " +:+ message);;
  _store_notification (u_id user) message "weekly_motivation".

Definition _send_weekly_motivation_notification (user : User) : M unit :=
  try_except (weekly_body user)
    (λ e, logger_error ("Error sending weekly motivation to user "
                        +:+ pretty (u_id user) +:+ ": " +:+ exception_str e)).

(** One iteration of the [for user in users] of [send_weekly_motivation]. *)
Definition weekly_iteration (user : User) : M unit :=
  try_except (_send_weekly_motivation_notification user)
    (λ e, logger_error ("Error sending weekly motivation to user "
                        +:+ pretty (u_id user) +:+ ": " +:+ exception_str e)).

Definition send_weekly_motivation : M unit :=
  try_except
    (logger_info "Sending weekly motivation messages...";;
     users ← query_active_users;
     for_each users weekly_iteration)
    (λ e, logger_error ("Error in send_weekly_motivation: " +:+ exception_str e)).

(** [User.query.get(user_id)]: the user with that primary key. *)
Definition query_user (uid : Z) : M (option User) :=
  db_query (λ w, snd <$> list_find (λ u, u_id u = uid) (db_users w)).

(** The dict [achievement_messages]. *)
Definition achievement_messages (user : User) : gmap string string :=
  list_to_map [
    ("first_upload", "Welcome to KN0X-FIT, " +:+ username user +:+ "! Your journey begins now! 🚀");
    ("streak_7", "7-day streak achieved, " +:+ username user +:+ "! You're building momentum! 🔥");
    ("streak_14", "2 weeks strong, " +:+ username user +:+ "! Habits are forming! 💪");
    ("streak_21", "21 days! You're officially building a habit, " +:+ username user +:+ "! 🌟");
    ("streak_30", "30-day milestone reached, " +:+ username user +:+ "! You're unstoppable! 🏆");
    ("cycle_complete", "30-day cycle completed, " +:+ username user +:+ "! Ready for the next challenge? 👑");
    ("perfect_week", "Perfect week completed, " +:+ username user +:+ "! All workouts and meals logged! ⭐");
    ("comeback", "Welcome back, " +:+ username user +:+ "! Every comeback starts with a single step! 💯")
  ]%string.

(** [NotificationService.send_achievement_notification]; [details] is not
    used. *)
Definition send_achievement_notification (uid : Z) (achievement_type : string)
    : M unit :=
  try_except
    (user ← query_user uid;
     match user with
     | None => mret tt
     | Some user =>
         let message :=
           default ("Great achievement, " +:+ username user +:+ "!")
                   (achievement_messages user !! achievement_type) in
         logger_info ("ACHIEVEMENT NOTIFICATION for " +:+ email user +:+ ": "
                      +:+ message);;
         _store_notification uid message "achievement"
     end)
    (λ e, logger_error ("Error sending achievement notification: "
                        +:+ exception_str e)).

End NotificationService.

(** *** The life cycle of the service: [start] and [stop] *)

(** A job of the [schedule] module: [every().day.at("20:00")] or
    [every().sunday.at("09:00")], and the method it calls. *)
Inductive Period := EveryDay | EverySunday.
Inductive Action := SendDailyReminders | SendWeeklyMotivation.

Record Job := mkJob {
  period : Period;
  at_time : string;
  action : Action
}.

(** [self.running], the jobs of the module-wide scheduler, and the number
    of scheduler threads started so far. *)
Record Service := mkService {
  running : bool;
  jobs : list Job;
  threads_started : nat
}.

(** [NotificationService.start] *)
Definition start (s : Service) : M Service :=
  if running s then mret s
  else
    let jobs' := jobs s ++ [mkJob EveryDay "20:00" SendDailyReminders;
                            mkJob EverySunday "09:00" SendWeeklyMotivation] in
    logger_info "Notification service started";;
    mret (mkService true jobs' (S (threads_started s))).

(** [NotificationService.stop]: [schedule.clear()] drops every job. *)
Definition stop (s : Service) : M Service :=
  logger_info "Notification service stopped";;
  mret (mkService false [] (threads_started s)).

(** ** Uploads ([src/routes/upload.py]) *)

(** A [datetime] is the number of microseconds since the epoch; a [str] is
    the string of the bytes of its UTF-8 encoding. *)
Definition microseconds_per_day : Z := 86400 * 1000000.

(** The model [Upload] of [src/models/user.py]; [id], [user_id] and
    [upload_type] are named [up_id], [up_user_id] and [up_type] here. *)
Record Upload := mkUpload {
  up_id : Z;
  up_user_id : Z;
  filename : string;
  original_filename : string;
  file_path : string;
  up_type : string;
  upload_date : Z;
  ai_timestamp : Z;
  google_drive_id : option string
}.

Definition ALLOWED_EXTENSIONS : gset string :=
  list_to_set ["png"; "jpg"; "jpeg"; "gif"; "webp"]%string.

Definition MAX_FILE_SIZE : Z := 16 * 1024 * 1024.

(** [c in s] for a character [c] *)
Fixpoint contains (c : Ascii.ascii) (s : string) : bool :=
  match s with
  | EmptyString => false
  | String c' s' => if decide (c' = c) then true else contains c s'
  end.

(** [s.rsplit(c, 1)]: [s] cut at its last [c], or [s] alone. *)
Fixpoint rsplit1 (c : Ascii.ascii) (s : string) : list string :=
  match s with
  | EmptyString => [EmptyString]
  | String c' s' =>
      match rsplit1 c s' with
      | [before; after] => [String c' before; after]
      | _ => if decide (c' = c) then [EmptyString; s'] else [String c' s']
      end
  end.

(** [l[i]] *)
Definition index {A : Type} (i : nat) (l : list A) : result A :=
  match l !! i with
  | Some x => Returns x
  | None => Raises IndexError
  end.

(** [s.lower()] on the letters A to Z.  Other bytes are kept: the only
    characters outside ASCII that [str.lower] maps into ASCII alone are
    the Kelvin sign, to the letter k, which no allowed extension has; so
    whether the result is an allowed extension is decided as in Python. *)
Definition lower_ascii (c : Ascii.ascii) : Ascii.ascii :=
  let n := Ascii.nat_of_ascii c in
  if bool_decide (65 ≤ n ≤ 90)%nat then Ascii.ascii_of_nat (n + 32) else c.

Fixpoint lower (s : string) : string :=
  match s with
  | EmptyString => EmptyString
  | String c s' => String (lower_ascii c) (lower s')
  end.

Definition dot : Ascii.ascii := Ascii.ascii_of_nat 46.

(** [allowed_file(filename)] *)
Definition allowed_file (name : string) : result bool :=
  if contains dot name then
    extension ← index 1 (rsplit1 dot name);
    mret (bool_decide (lower extension ∈ ALLOWED_EXTENSIONS))
  else mret false.

(** *** [get_upload_stats] *)

Record UploadStats := mkUploadStats {
  total_uploads : Z;
  workout_uploads : Z;
  diet_uploads : Z;
  recent_uploads : Z;
  today_uploads : Z;
  google_drive_synced : Z;
  sync_percentage : number
}.

(** [Upload.query.filter(...).count()] *)
Definition count_uploads (P : Upload → Prop) `{∀ u, Decision (P u)}
    (uploads : list Upload) : Z :=
  Z.of_nat (length (filter P uploads)).

(** [get_upload_stats(current_user)], with [datetime.utcnow()] read as
    [now] by both of its calls. *)
Definition get_upload_stats (uploads : list Upload) (current_user : Z) (now : Z)
    : Response UploadStats :=
  let total := count_uploads (λ u, up_user_id u = current_user) uploads in
  let workout :=
    count_uploads (λ u, up_user_id u = current_user ∧ up_type u = "workout"%string)
      uploads in
  let diet :=
    count_uploads (λ u, up_user_id u = current_user ∧ up_type u = "diet"%string)
      uploads in
  let week_ago := now - 7 * microseconds_per_day in
  let recent :=
    count_uploads (λ u, up_user_id u = current_user ∧ week_ago ≤ upload_date u)
      uploads in
  let today := now `div` microseconds_per_day in
  let today_count :=
    count_uploads (λ u, up_user_id u = current_user ∧
                        upload_date u `div` microseconds_per_day = today)
      uploads in
  let synced :=
    count_uploads (λ u, up_user_id u = current_user ∧ google_drive_id u ≠ None)
      uploads in
  respond "Failed to fetch stats"
    (percentage ← guarded_percentage synced total;
     mret (mkUploadStats total workout diet recent today_count synced percentage)).

(** *** [upload_image] and [delete_upload] *)

Record FileStorage := mkFileStorage {
  storage_filename : string;
  storage_data : string
}.

(** The request: [request.files.get('file')] and [request.form.get('type')]. *)
Record UploadRequest := mkUploadRequest {
  request_file : option FileStorage;
  request_type : option string
}.

(** What [drive_service.upload_file] returns on success. *)
Record DriveFile := mkDriveFile {
  drive_file_id : string;
  drive_file_name : string;
  web_view_link : option string
}.

(** What [upload_image] passes to [drive_service.upload_file]. *)
Record DriveUpload := mkDriveUpload {
  drive_file_path : string;
  drive_user_email : string;
  drive_upload_type : string;
  drive_original_filename : string;
  drive_ai_timestamp : Z;
  drive_file_size : Z
}.

Inductive DriveInfo :=
  | DriveUploaded (file_id : string) (link : option string)
  | DriveNotUploaded (message : string).

Record UploadBody := mkUploadBody {
  upload_body_message : string;
  upload_body_upload : Upload;
  upload_body_timestamp : Z;
  upload_body_drive : DriveInfo
}.

Inductive Reply (A : Type) :=
  | Reply200 (body : A)
  | Reply201 (body : A)
  | Reply400 (error : string)
  | Reply404 (error : string)
  | Reply500 (error : string).
Arguments Reply200 {A} body.
Arguments Reply201 {A} body.
Arguments Reply400 {A} error.
Arguments Reply404 {A} error.
Arguments Reply500 {A} error.

Section Uploads.

(** The collaborators of the upload routes.  [FS] and [Drive] are the
    states of the file system and of Google Drive; every operation on them
    gives the state it leaves with what it returns or raises
    ([drive_service.upload_file] reads the saved file from the disk).
    [secure_filename] is werkzeug's, [path_join] is [os.path.join], and
    [commit_fault] is the exception [db.session.commit()] raises, if any,
    for the table it is to write. *)
Variable FS : Type.
Variable Drive : Type.
Variable makedirs : string → FS → FS * option Exception.
Variable write_file : string → string → FS → FS * option Exception.
Variable path_exists : string → FS → result bool.
Variable remove_file : string → FS → FS * option Exception.
Variable drive_upload_file :
  DriveUpload → FS → Drive → Drive * result (option DriveFile).
Variable drive_delete_file : string → Drive → Drive * result bool.
Variable secure_filename : string → string.
Variable path_join : string → string → string.
Variable commit_fault : list Upload → option Exception.
Variable UPLOAD_FOLDER : string.

Record Site := mkSite {
  uploads : list Upload;
  disk : FS;
  drive : Drive
}.

(** A statement of a handler: it ends with a value or an exception, in the
    state it leaves. *)
Definition H (A : Type) : Type := Site → result A * Site.

#[global] Instance H_ret : MRet H := λ A a site, (Returns a, site).
#[global] Instance H_bind : MBind H := λ A B f m site,
  match m site with
  | (Returns a, site') => f a site'
  | (Raises e, site') => (Raises e, site')
  end.

Definition lift_pure {A : Type} (r : result A) : H A := λ site, (r, site).

(** An operation on the file system, as a statement. *)
Definition on_disk (op : FS → FS * option Exception) : H unit :=
  λ site,
    let '(disk', raised) := op (disk site) in
    (match raised with Some e => Raises e | None => Returns tt end,
     mkSite (uploads site) disk' (drive site)).

(** [try: drive_result = drive_service.upload_file(...) except: print(...)] *)
Definition try_drive_upload (request : DriveUpload) : H (option DriveFile) :=
  λ site,
    let '(drive', outcome) :=
      drive_upload_file request (disk site) (drive site) in
    (Returns (match outcome with Returns r => r | Raises _ => None end),
     mkSite (uploads site) (disk site) drive').

(** [db.session.add(record); db.session.commit()]: the row is in the table
    when the commit returns, and not when it raises. *)
Definition add_and_commit (record : Upload) : H unit :=
  λ site,
    match commit_fault (uploads site ++ [record]) with
    | Some e => (Raises e, site)
    | None => (Returns tt, mkSite (uploads site ++ [record]) (disk site) (drive site))
    end.

(** The primary key of the next row. *)
Definition next_upload_id (table : list Upload) : Z :=
  1 + foldr Z.max 0 (up_id <$> table).

(** The body of the [try] of [upload_image].  [uuid_hex] is
    [uuid.uuid4().hex], [now] the [datetime.utcnow()] of
    [generate_ai_timestamp] and [insert_time] that of the column default of
    [upload_date]. *)
Definition upload_image_body (current_user : User) (request : UploadRequest)
    (uuid_hex : string) (now insert_time : Z) : H (Reply UploadBody) :=
  match request_file request with
  | None => mret (Reply400 "No file provided")
  | Some file =>
      let upload_type := default "workout"%string (request_type request) in
      if bool_decide (storage_filename file = EmptyString) then
        mret (Reply400 "No file selected")
      else
        allowed ← lift_pure (allowed_file (storage_filename file));
        if negb allowed then
          mret (Reply400 "Invalid file type. Allowed: PNG, JPG, JPEG, GIF, WEBP")
        else if bool_decide (upload_type ∉ ["workout"; "diet"]%string) then
          mret (Reply400 ("Invalid upload type. Must be " +:+ double_quote
                          +:+ "workout" +:+ double_quote +:+ " or "
                          +:+ double_quote +:+ "diet" +:+ double_quote))
        else
          let file_data := storage_data file in
          if bool_decide (Z.of_nat (String.length file_data) > MAX_FILE_SIZE) then
            mret (Reply400 "File too large. Maximum size is 16MB")
          else
            extension ← lift_pure (index 1 (rsplit1 dot (storage_filename file)));
            let file_extension := lower extension in
            stem ← lift_pure (index 0 (rsplit1 dot (storage_filename file)));
            let unique_filename :=
              (uuid_hex +:+ "_" +:+ secure_filename stem +:+ "."
               +:+ file_extension)%string in
            let user_upload_dir :=
              path_join UPLOAD_FOLDER (pretty (u_id current_user)) in
            on_disk (makedirs user_upload_dir);;
            let path := path_join user_upload_dir unique_filename in
            on_disk (write_file path file_data);;
            drive_result ←
              try_drive_upload
                (mkDriveUpload path (email current_user) upload_type
                   (storage_filename file) now
                   (Z.of_nat (String.length file_data)));
            site ← (λ site, (Returns site, site));
            let upload_record :=
              mkUpload (next_upload_id (uploads site)) (u_id current_user)
                unique_filename (storage_filename file) path upload_type
                insert_time now (drive_file_id <$> drive_result) in
            add_and_commit upload_record;;
            mret (Reply201
                    (mkUploadBody "File uploaded successfully" upload_record now
                       (match drive_result with
                        | Some file =>
                            DriveUploaded (drive_file_id file) (web_view_link file)
                        | None =>
                            DriveNotUploaded
                              "File saved locally but Google Drive sync failed"
                        end)))
  end.

(** [except Exception as e: db.session.rollback(); return ..., 500]: the
    table is the one of the last commit. *)
Definition guarded {A : Type} (prefix : string) (body : H (Reply A))
    : Site → Reply A * Site :=
  λ site,
    match body site with
    | (Returns reply, site') => (reply, site')
    | (Raises e, site') => (Reply500 (prefix +:+ ": " +:+ exception_str e), site')
    end.

Definition upload_image (current_user : User) (request : UploadRequest)
    (uuid_hex : string) (now insert_time : Z) : Site → Reply UploadBody * Site :=
  guarded "Upload failed"
    (upload_image_body current_user request uuid_hex now insert_time).

(** [try: drive_service.delete_file(id) except: print(...)] *)
Definition try_drive_delete (file_id : string) : H unit :=
  λ site,
    let '(drive', _) := drive_delete_file file_id (drive site) in
    (Returns tt, mkSite (uploads site) (disk site) drive').

(** [try: if os.path.exists(path): os.remove(path) except: print(...)] *)
Definition try_remove (path : string) : H unit :=
  λ site,
    match path_exists path (disk site) with
    | Returns true =>
        let '(disk', _) := remove_file path (disk site) in
        (Returns tt, mkSite (uploads site) disk' (drive site))
    | _ => (Returns tt, site)
    end.

(** [db.session.delete(upload); db.session.commit()] for the row at
    position [i]. *)
Definition delete_and_commit (i : nat) : H unit :=
  λ site,
    match commit_fault (delete i (uploads site)) with
    | Some e => (Raises e, site)
    | None => (Returns tt, mkSite (delete i (uploads site)) (disk site) (drive site))
    end.

Definition delete_upload (current_user : Z) (upload_id : Z)
    : Site → Reply string * Site :=
  guarded "Failed to delete upload"
    (site ← (λ site, (Returns site, site));
     match list_find (λ u, up_id u = upload_id ∧ up_user_id u = current_user)
                     (uploads site) with
     | None => mret (Reply404 "Upload not found")
     | Some (i, upload) =>
         match google_drive_id upload with
         | Some file_id =>
             if bool_decide (file_id = EmptyString) then mret tt
             else try_drive_delete file_id
         | None => mret tt
         end;;
         try_remove (file_path upload);;
         delete_and_commit i;;
         mret (Reply200 "Upload deleted successfully")
     end).

End Uploads.

Arguments mkSite {FS Drive} uploads disk drive.
Arguments uploads {FS Drive} s.
Arguments disk {FS Drive} s.
Arguments drive {FS Drive} s.
Arguments upload_image {FS Drive}.
Arguments delete_upload {FS Drive}.

(** ** Vocabulary of the properties *)


(** The invariant of the data model: at most one record per user and day. *)
Definition one_record_per_day (tbl : Table) : Prop :=
  ∀ i j r1 r2, tbl !! i = Some r1 → tbl !! j = Some r2 →
    user_id r1 = user_id r2 → date r1 = date r2 → i = j.

(** The number of rows dated [d] or earlier: what the backward walk has
    left to consume. *)
Definition rows_upto (tbl : Table) (d : Date) : nat :=
  length (filter (λ r, date r ≤ d) tbl).

(** [latest] is a record of [uid] of maximal date. *)
Definition is_latest (tbl : Table) (uid : Z) (latest : ConsistencyRecord) : Prop :=
  latest ∈ tbl ∧ user_id latest = uid ∧
  ∀ r, r ∈ tbl → user_id r = uid → date r ≤ date latest.

(** The reading of the spec that a log event for today stores today's
    position in the streak: after the update the stored [streak_day] is the
    length of the run of active days that ends today, which is what the
    backward walk returns from tomorrow. *)
Definition stored_streak_counts_today : Prop :=
  ∀ tbl uid today rand upload_type body tbl',
    update_consistency tbl uid today rand today upload_type
      = Some (Ok200 body, tbl') →
    calculate_streak tbl' uid (today + 1) = Some (streak_day (update_record body)).

(** [count / total * 100] rounded to one decimal place, as a float. *)
Definition rounded_percent (count total : Z) : number :=
  Float (float_round1
           (float_mul_int (SFdiv prec emax (float_of_int count) (float_of_int total))
                          100)).

(** The reading of the spec of [cycle_info]: [days_remaining] is
    [max(0, 30 - cycle_day)] for every latest record with a [cycle_start]. *)
Definition days_remaining_is_clamped_difference : Prop :=
  ∀ tbl uid today rand latest start data,
    query_latest tbl uid = Some latest → cycle_start latest = Some start →
    get_consistency_data tbl uid today rand = Some (Ok200 data) →
    cycle_day (cycle_info data) = Z.min 30 (today - start + 1) ∧
    days_remaining (cycle_info data) = Z.max 0 (30 - cycle_day (cycle_info data)).

(** The buckets of the spec for a streak: [0], [1], [[2,7)], [[7,14)],
    [[14,21)], [[21,30)] and [[30,∞)]. *)
Inductive Bucket :=
  | Zero | One | From2 | From7 | From14 | From21 | From30.

Definition bucket_of (streak : Z) : option Bucket :=
  if bool_decide (streak = 0) then Some Zero
  else if bool_decide (streak = 1) then Some One
  else if bool_decide (2 ≤ streak < 7) then Some From2
  else if bool_decide (7 ≤ streak < 14) then Some From7
  else if bool_decide (14 ≤ streak < 21) then Some From14
  else if bool_decide (21 ≤ streak < 30) then Some From21
  else if bool_decide (30 ≤ streak) then Some From30
  else None.

(** The message of each bucket. *)
Definition bucket_message (b : Bucket) (streak : Z) : string :=
  match b with
  | Zero => "Ready to start your fitness journey? Every expert was once a beginner! ðŸš€"
  | One => "Great start! Day 1 is complete. Momentum is building! ðŸ”¥"
  | From2 => ("Amazing! " +:+ pretty streak +:+ " days strong! You're building an incredible habit! ðŸ’ª")%string
  | From7 => ("Fantastic " +:+ pretty streak +:+ "-day streak! You're in the zone! ðŸŒŸ")%string
  | From14 => ("Outstanding " +:+ pretty streak +:+ " days! You're forming a powerful habit! âš¡")%string
  | From21 => ("Incredible " +:+ pretty streak +:+ "-day streak! You're a consistency champion! ðŸ†")%string
  | From30 => ("Legendary " +:+ pretty streak +:+ "-day streak! You're an inspiration! ðŸ‘‘")%string
  end.

(** The world after [k] more queries. *)
Definition asked (k : nat) (w : World) : World :=
  mkWorld (db_users w) (db_records w) (clock w) (log w) (k + queries w) (draws w).

(** What a sweep never writes: the two tables and the clock. *)
Definition same_tables (w w' : World) : Prop :=
  db_users w' = db_users w ∧ db_records w' = db_records w ∧ clock w' = clock w.

(** A statement that ends, normally or with an exception. *)
Definition safe {A : Type} (m : M A) : Prop :=
  ∀ w, (m w).1 ≠ Unfinished ∧ same_tables w (m w).2.

(** A statement that ends normally: no exception leaves it. *)
Definition quiet (m : M unit) : Prop :=
  ∀ w, (m w).1 = Done tt ∧ same_tables w (m w).2.

(** The world after the iterations of a [for] that are run one after the
    other for every element of [xs], each from the world the one before
    left. *)
Definition after_each {A : Type} (body : A → M unit) (xs : list A) (w : World)
    : World :=
  foldl (λ w' x, (body x w').2) w xs.

(** A world for the examples: three active users and one inactive, at day
    100; the first user has logged both activities today, the last one
    only a workout yesterday. *)
Definition example_world : World :=
  mkWorld [mkUser 1 "alice" "alice@example.org" true;
           mkUser 2 "bob" "bob@example.org" true;
           mkUser 4 "dave" "dave@example.org" false;
           mkUser 3 "carol" "carol@example.org" true]
          [mkRecord 1 1 100 true true 0 (Some 100);
           mkRecord 2 3 99 true false 0 (Some 99)]
          100 [] 0 0.

(** A database that raises at its query number 2, the one for the second
    active user of [example_world]. *)
Definition example_fault (k : nat) : option Exception :=
  if decide (k = 2%nat) then Some (DatabaseError "database is locked") else None.





(** The two lines the service logs for a notification. *)
Definition notification_lines (kind : string) (user : User) (message : string)
    : list LogEntry :=
  [INFO (kind +:+ " for " +:+ email user +:+ ": " +:+ message);
   INFO ("Stored notification for user " +:+ pretty (u_id user) +:+ ": " +:+ message)].


(** The service as [NotificationService()] builds it, with no job in the
    scheduler, and the calls of [start] and [stop] made on it in turn. *)
Definition initial_service : Service := mkService false [] 0.

Inductive ServiceCall := CallStart | CallStop.

#[global] Instance ServiceCall_eq_dec : EqDecision ServiceCall.
Proof. solve_decision. Defined.

Definition call (c : ServiceCall) (s : Service) : M Service :=
  match c with
  | CallStart => start s
  | CallStop => stop s
  end.

Fixpoint run_calls (calls : list ServiceCall) (s : Service) : M Service :=
  match calls with
  | [] => mret s
  | c :: calls' => s' ← call c s; run_calls calls' s'
  end.

(** The two jobs of [start], in the order it schedules them. *)
Definition standard_jobs : list Job :=
  [mkJob EveryDay "20:00" SendDailyReminders;
   mkJob EverySunday "09:00" SendWeeklyMotivation].

(** The request passes the checks of [upload_image]: it has a file with a
    name that [allowed_file] accepts, a type that is workout or diet (workout
    when none is sent) and at most [MAX_FILE_SIZE] bytes. *)
Definition acceptable (request : UploadRequest) : Prop :=
  ∃ file,
    request_file request = Some file ∧
    storage_filename file ≠ EmptyString ∧
    allowed_file (storage_filename file) = Returns true ∧
    default "workout"%string (request_type request) ∈ ["workout"; "diet"]%string ∧
    Z.of_nat (String.length (storage_data file)) ≤ MAX_FILE_SIZE.

(** The row is the one [upload_id] and [current_user] name. *)
Definition targeted (current_user upload_id : Z) (u : Upload) : Prop :=
  up_id u = upload_id ∧ up_user_id u = current_user.

#[global] Instance targeted_dec current_user upload_id u :
  Decision (targeted current_user upload_id u).
Proof. unfold targeted. apply _. Defined.

(** A small site for the examples: the disk is the list of the files with
    their contents, directories are not recorded, Drive has no credentials
    (so it uploads and deletes nothing) and every commit succeeds. *)
Definition example_makedirs (path : string) (fs : list (string * string))
    : list (string * string) * option Exception := (fs, None).

Definition example_write_file (path data : string) (fs : list (string * string))
    : list (string * string) * option Exception := ((path, data) :: fs, None).

Definition example_path_exists (path : string) (fs : list (string * string))
    : result bool := Returns (bool_decide (path ∈ fs.*1)).

Definition example_remove_file (path : string) (fs : list (string * string))
    : list (string * string) * option Exception :=
  (filter (λ entry, entry.1 ≠ path) fs, None).

Definition example_drive_upload (request : DriveUpload)
    (fs : list (string * string)) (d : list string)
    : list string * result (option DriveFile) := (d, Returns None).

Definition example_drive_delete (file_id : string) (d : list string)
    : list string * result bool := (d, Returns false).

Definition example_secure_filename (name : string) : string := name.

Definition example_path_join (directory name : string) : string :=
  directory +:+ "/" +:+ name.

Definition example_commit (table : list Upload) : option Exception := None.

Definition example_site : Site (list (string * string)) (list string) :=
  mkSite
    [mkUpload 1 2 "ab12_lunch.png" "lunch.png" "uploads/2/ab12_lunch.png" "diet"
       1000 900 (Some "drive-1")]
    [("uploads/2/ab12_lunch.png"%string, "png bytes"%string)]
    ["drive-1"%string].

Definition example_request : UploadRequest :=
  mkUploadRequest (Some (mkFileStorage "run.JPG" "jpeg bytes")) None.

Definition example_user : User := mkUser 1 "alice" "alice@example.org" true.

(** * Properties *)

(** ** The queries *)

Lemma query_day_Some tbl uid d i r :
  query_day tbl uid d = Some (i, r) →
  tbl !! i = Some r ∧ user_id r = uid ∧ date r = d.
Proof.
  unfold query_day. intros (Hi & [Hu Hd] & _)%list_find_Some. done.
Qed.

Lemma query_day_None tbl uid d :
  query_day tbl uid d = None →
  ∀ r, r ∈ tbl → user_id r = uid → date r ≠ d.
Proof.
  unfold query_day. rewrite list_find_None, Forall_forall.
  intros H r Hr Hu Hd. apply (H r Hr). done.
Qed.




(** ** The streak walk *)

Lemma rows_upto_mono tbl d1 d2 : d1 ≤ d2 → (rows_upto tbl d1 ≤ rows_upto tbl d2)%nat.
Proof.
  intros Hd. unfold rows_upto. induction tbl as [|r tbl IH]; [done|].
  rewrite !filter_cons. repeat case_decide; simpl; lia.
Qed.

Lemma rows_upto_step tbl r :
  r ∈ tbl → (rows_upto tbl (date r - 1) < rows_upto tbl (date r))%nat.
Proof.
  unfold rows_upto. induction tbl as [|r' tbl IH]; intros Hin.
  - by apply not_elem_of_nil in Hin.
  - apply elem_of_cons in Hin as [<-|Hin].
    + pose proof (rows_upto_mono tbl (date r - 1) (date r)) as Hm.
      unfold rows_upto in Hm. rewrite !filter_cons.
      repeat case_decide; simpl; lia.
    + specialize (IH Hin). rewrite !filter_cons.
      repeat case_decide; simpl; lia.
Qed.

Lemma rows_upto_length tbl d : (rows_upto tbl d ≤ length tbl)%nat.
Proof. unfold rows_upto. apply length_filter. Qed.

(** With more iterations than rows are left, the loop ends, and it has
    counted the maximal run of active days that ends at [check_date]. *)
Lemma calculate_streak_loop_ends tbl uid fuel :
  ∀ check_date current_streak,
    (rows_upto tbl check_date < fuel)%nat →
    ∃ n, 0 ≤ n ∧
      calculate_streak_loop fuel tbl uid check_date current_streak
        = Some (current_streak + n) ∧
      (∀ i, 0 ≤ i < n → day_active tbl uid (check_date - i) = true) ∧
      day_active tbl uid (check_date - n) = false.
Proof.
  induction fuel as [|fuel IH]; intros d acc Hfuel; [lia|].
  simpl. unfold day_active.
  destruct (query_day tbl uid d) as [[i r]|] eqn:Hq.
  - destruct (active r) eqn:Ha.
    + pose proof Hq as (Hi & Hu & Hd)%query_day_Some.
      assert (r ∈ tbl) as Hin by (by eapply list_elem_of_lookup_2).
      pose proof (rows_upto_step tbl r Hin) as Hstep. rewrite Hd in Hstep.
      destruct (IH (d - 1) (acc + 1)) as (n & Hn & Hloop & Hrun & Hstop); [lia|].
      exists (n + 1). split_and!.
      * lia.
      * rewrite Hloop. f_equal. lia.
      * intros k Hk. destruct (decide (k = 0)) as [->|Hk0].
        -- rewrite Z.sub_0_r, Hq. done.
        -- specialize (Hrun (k - 1)). unfold day_active in Hrun.
           replace (d - 1 - (k - 1)) with (d - k) in Hrun by lia.
           apply Hrun. lia.
      * unfold day_active in Hstop.
        replace (d - 1 - n) with (d - (n + 1)) in Hstop by lia. done.
    + exists 0. rewrite Z.add_0_r, Z.sub_0_r, Hq. split_and!; [lia|done|lia|done].
  - exists 0. rewrite Z.add_0_r, Z.sub_0_r, Hq. split_and!; [lia|done|lia|done].
Qed.

(** More iterations than needed change nothing. *)
Lemma calculate_streak_loop_more tbl uid fuel :
  ∀ fuel' check_date current_streak n,
    calculate_streak_loop fuel tbl uid check_date current_streak = Some n →
    (fuel ≤ fuel')%nat →
    calculate_streak_loop fuel' tbl uid check_date current_streak = Some n.
Proof.
  induction fuel as [|fuel IH]; intros fuel' d acc n Hloop Hle; [done|].
  destruct fuel' as [|fuel']; [lia|]. simpl in *.
  destruct (query_day tbl uid d) as [[i r]|]; [|done].
  destruct (active r); [|done]. apply IH; [done|lia].
Qed.

Lemma calculate_streak_ends tbl uid today :
  ∃ n, 0 ≤ n ∧ calculate_streak tbl uid today = Some n ∧
    (∀ i, 0 ≤ i < n → day_active tbl uid (today - 1 - i) = true) ∧
    day_active tbl uid (today - 1 - n) = false.
Proof.
  unfold calculate_streak.
  destruct (calculate_streak_loop_ends tbl uid (S (length tbl)) (today - 1) 0)
    as (n & Hn & Hloop & Hrun & Hstop).
  { pose proof (rows_upto_length tbl (today - 1)). lia. }
  exists n. rewrite Z.add_0_l in Hloop. done.
Qed.

(** The run of active days that ends yesterday has one length only. *)
Lemma streak_run_unique tbl uid d n m :
  0 ≤ n → 0 ≤ m →
  (∀ i, 0 ≤ i < n → day_active tbl uid (d - i) = true) →
  day_active tbl uid (d - n) = false →
  (∀ i, 0 ≤ i < m → day_active tbl uid (d - i) = true) →
  day_active tbl uid (d - m) = false →
  n = m.
Proof.
  intros Hn Hm Hrun Hstop Hrun' Hstop'.
  destruct (Z.lt_trichotomy n m) as [Hlt|[Heq|Hgt]]; [|done|].
  - rewrite Hrun' in Hstop by lia. done.
  - rewrite Hrun in Hstop' by lia. done.
Qed.

Lemma calculate_streak_run tbl uid today n :
  0 ≤ n →
  (∀ i, 0 ≤ i < n → day_active tbl uid (today - 1 - i) = true) →
  day_active tbl uid (today - 1 - n) = false →
  calculate_streak tbl uid today = Some n.
Proof.
  intros Hn Hrun Hstop.
  destruct (calculate_streak_ends tbl uid today) as (m & Hm & -> & Hrun' & Hstop').
  f_equal. eapply streak_run_unique; eauto.
Qed.





(** A record set with a gap: days 10, 12 and 13 are logged, day 11 is not. *)
Example streak_stops_at_gap :
  let tbl := [mkRecord 1 7 10 true false 0 (Some 10);
              mkRecord 2 7 12 false true 0 (Some 10);
              mkRecord 3 7 13 true true 0 (Some 10)] in
  calculate_streak tbl 7 14 = Some 2 ∧ calculate_streak tbl 7 13 = Some 1 ∧
  calculate_streak tbl 7 12 = Some 0 ∧ calculate_streak tbl 8 14 = Some 0.
Proof. vm_compute. done. Qed.

(** ** The best streak *)






(** An inactive record between two active ones resets the counter; a day
    without a record between them does not. *)
Example best_streak_resets_on_inactive_record :
  best_streak [mkRecord 1 7 10 true false 0 (Some 10);
               mkRecord 2 7 11 false false 0 (Some 10);
               mkRecord 3 7 12 false true 0 (Some 10)] 7 = 1 ∧
  best_streak [mkRecord 3 7 12 false true 0 (Some 10);
               mkRecord 1 7 10 true false 0 (Some 10)] 7 = 2 ∧
  best_streak [] 7 = 0.
Proof. vm_compute. done. Qed.


(** ** The cycle manager *)

#[local] Instance date_desc_trans : Transitive date_desc.
Proof. unfold date_desc. intros x y z. lia. Qed.
#[local] Instance date_desc_total : Total date_desc.
Proof. unfold date_desc. intros x y. lia. Qed.
#[local] Instance date_asc_trans : Transitive date_asc.
Proof. unfold date_asc. intros x y z. lia. Qed.
#[local] Instance date_asc_total : Total date_asc.
Proof. unfold date_asc. intros x y. lia. Qed.

Lemma query_latest_Some tbl uid latest :
  query_latest tbl uid = Some latest → is_latest tbl uid latest.
Proof.
  unfold query_latest, is_latest. intros Hhead.
  pose proof (StronglySorted_merge_sort date_desc (filter (by_user uid) tbl)) as Hsorted.
  pose proof (merge_sort_Permutation date_desc (filter (by_user uid) tbl)) as Hperm.
  destruct (merge_sort date_desc (filter (by_user uid) tbl)) as [|x rest]; [done|].
  simpl in Hhead. injection Hhead as ->.
  assert (latest ∈ filter (by_user uid) tbl) as [Hin Hu]%list_elem_of_filter.
  { rewrite <- Hperm. by left. }
  split_and!; [done..|].
  intros r Hr Hur.
  assert (r ∈ latest :: rest) as [->|Hrest]%elem_of_cons.
  { rewrite Hperm. by apply list_elem_of_filter. }
  - lia.
  - apply StronglySorted_inv in Hsorted as [_ Hall].
    rewrite Forall_forall in Hall. by apply Hall.
Qed.

Lemma query_latest_None tbl uid :
  query_latest tbl uid = None → filter (by_user uid) tbl = [].
Proof.
  unfold query_latest. intros Hhead.
  pose proof (merge_sort_Permutation date_desc (filter (by_user uid) tbl)) as Hperm.
  destruct (merge_sort date_desc (filter (by_user uid) tbl)); [|done].
  by apply Permutation_nil_l in Hperm.
Qed.

(** C3.  [get_or_create_consistency_record] returns the record of the
    user for the target date unchanged, and leaves the table as it is, when
    there is one.  When there is none it adds one record for that user and
    date, with both flags false, whose [cycle_start] is that of the latest
    record of the user (a record of maximal date) when
    [target_date - latest.cycle_start < 30], and is [target_date] when that
    gap is 30 or more, when the user has no record, or when the latest
    record has no [cycle_start]. *)
Theorem get_or_create_cycle_start (tbl : Table) (uid : Z) (target_date : Date) :
  (∀ i existing,
     query_day tbl uid target_date = Some (i, existing) →
     get_or_create_consistency_record tbl uid target_date = (i, existing, tbl)) ∧
  (query_day tbl uid target_date = None →
   ∃ record,
     get_or_create_consistency_record tbl uid target_date
       = (length tbl, record, tbl ++ [record]) ∧
     user_id record = uid ∧ date record = target_date ∧
     workout_logged record = false ∧ diet_logged record = false ∧
     match query_latest tbl uid with
     | Some latest =>
         is_latest tbl uid latest ∧
         match cycle_start latest with
         | Some start =>
             (target_date - start < 30 → cycle_start record = Some start) ∧
             (30 ≤ target_date - start → cycle_start record = Some target_date)
         | None => cycle_start record = Some target_date
         end
     | None =>
         filter (by_user uid) tbl = [] ∧ cycle_start record = Some target_date
     end).
Proof.
  unfold get_or_create_consistency_record. split.
  - intros i existing ->. done.
  - intros ->. eexists. split; [reflexivity|]. simpl. split_and!; try done.
    destruct (query_latest tbl uid) as [latest|] eqn:Hlatest.
    + split; [by apply query_latest_Some|].
      destruct (cycle_start latest) as [start|]; [|done].
      case_bool_decide; split; intros; (done || lia).
    + split; [by apply query_latest_None|done].
Qed.

Lemma get_or_create_cycle_start_witness :
  ∃ record,
    get_or_create_consistency_record
      [mkRecord 1 7 100 true false 0 (Some 100)] 7 129
      = (1%nat, record, [mkRecord 1 7 100 true false 0 (Some 100); record]) ∧
    cycle_start record = Some 100.
Proof.
  destruct (get_or_create_cycle_start
              [mkRecord 1 7 100 true false 0 (Some 100)] 7 129) as [_ Hnew].
  destruct (Hnew eq_refl) as (record & Hget & _ & _ & _ & _ & Hcycle).
  exists record. split; [exact Hget|].
  destruct Hcycle as [_ [Hinherit _]]. apply Hinherit. reflexivity.
Defined.

Example backfill_inherits_cycle_of_later_record :
  let tbl := [mkRecord 1 7 100 true false 0 (Some 100)] in
  (get_or_create_consistency_record tbl 7 95).1.2
    = mkRecord 2 7 95 false false 0 (Some 100) ∧
  (get_or_create_consistency_record tbl 7 129).1.2
    = mkRecord 2 7 129 false false 0 (Some 100) ∧
  (get_or_create_consistency_record tbl 7 130).1.2
    = mkRecord 2 7 130 false false 0 (Some 130) ∧
  get_or_create_consistency_record tbl 7 100
    = (0%nat, mkRecord 1 7 100 true false 0 (Some 100), tbl).
Proof. vm_compute. done. Qed.

(** ** The update of a day's record *)

(** What a handler holds after [get_or_create_consistency_record]: the
    first row of the table for the user and the day. *)
Lemma get_or_create_handle tbl uid target_date i r tbl0 :
  get_or_create_consistency_record tbl uid target_date = (i, r, tbl0) →
  query_day tbl0 uid target_date = Some (i, r) ∧
  (tbl0 = tbl ∨ (tbl0 = tbl ++ [r] ∧ query_day tbl uid target_date = None)).
Proof.
  unfold get_or_create_consistency_record.
  destruct (query_day tbl uid target_date) as [[j r']|] eqn:Hq.
  - intros [= <- <- <-]. auto.
  - intros [= <- <- <-]. split; [|auto].
    unfold query_day in *. rewrite list_find_app_r by done. simpl.
    rewrite decide_True by done. simpl. do 2 f_equal.
Qed.

Lemma query_day_insert uid d r1 tbl :
  ∀ i r0, tbl !! i = Some r0 → user_id r1 = user_id r0 → date r1 = date r0 →
    query_day (<[i := r1]> tbl) uid d
    = (λ '(j, r), (j, if decide (j = i) then r1 else r)) <$> query_day tbl uid d.
Proof.
  unfold query_day. induction tbl as [|x tbl IH]; intros i r0 Hi Hu Hd; [done|].
  destruct i as [|i]; simpl in *.
  - injection Hi as ->.
    destruct (decide (by_user_date uid d r1)) as [H1|H1],
             (decide (by_user_date uid d r0)) as [H0|H0];
      unfold by_user_date in *.
    + done.
    + exfalso. destruct H1. apply H0. split; congruence.
    + exfalso. destruct H0. apply H1. split; congruence.
    + by destruct (list_find _ tbl) as [[j r]|].
  - destruct (decide (by_user_date uid d x)); [done|].
    rewrite (IH i r0) by done.
    destruct (list_find (by_user_date uid d) tbl) as [[j r]|]; [|done].
    simpl. repeat case_decide; (done || lia).
Qed.

(** After an assignment to the held record, the days other than its own
    are as active as they were before the handler ran, and its own day is
    as active as the record now is. *)
Lemma day_active_after_assign tbl uid target_date i r0 tbl0 r1 d :
  get_or_create_consistency_record tbl uid target_date = (i, r0, tbl0) →
  user_id r1 = user_id r0 → date r1 = date r0 →
  day_active (<[i := r1]> tbl0) uid d
  = if decide (d = target_date) then active r1 else day_active tbl uid d.
Proof.
  intros [Hq0 Htbl0]%get_or_create_handle Hu Hd.
  pose proof Hq0 as (Hi & Hu0 & Hd0)%query_day_Some.
  unfold day_active. rewrite (query_day_insert uid d r1 tbl0 i r0) by done.
  case_decide as Hdt.
  - subst d. rewrite Hq0. simpl. by rewrite decide_True.
  - assert (query_day tbl0 uid d = query_day tbl uid d) as Hsame.
    { destruct Htbl0 as [->|[-> Hnone]]; [done|].
      unfold query_day in *.
      destruct (list_find (by_user_date uid d) tbl) as [[j r]|] eqn:Hf.
      - by apply list_find_app_l.
      - rewrite list_find_app_r by done. simpl.
        rewrite decide_False; [done|]. unfold by_user_date. intros [_ ?]. congruence. }
    destruct (query_day tbl0 uid d) as [[j r]|] eqn:Hq; rewrite <- Hsame; [|done].
    simpl. apply query_day_Some in Hq as (Hj & _ & Hdj).
    rewrite decide_False; [done|]. intros ->. congruence.
Qed.

Lemma message_without_miss rand streak :
  ∃ message, get_motivational_message rand streak 0 = Returns message.
Proof.
  unfold get_motivational_message. rewrite bool_decide_false by lia.
  repeat case_bool_decide; eauto.
Qed.

(** The handler unfolded: the record it held, the one it leaves, and the
    streak it stored. *)
Lemma update_consistency_unfold tbl uid today rand target_date upload_type :
  upload_type ∈ ["workout"; "diet"]%string →
  ∃ i r0 tbl0 streak message,
    get_or_create_consistency_record tbl uid target_date = (i, r0, tbl0) ∧
    let r1 := if bool_decide (upload_type = "workout"%string)
              then set_workout_logged true r0 else set_diet_logged true r0 in
    let r2 := set_streak_day streak r1 in
    calculate_streak (<[i := r1]> tbl0) uid today = Some streak ∧
    update_consistency tbl uid today rand target_date upload_type
    = Some (Ok200 (mkUpdateBody (title upload_type +:+ " logged successfully")
                     r2 (workout_logged r2 && diet_logged r2) message),
            <[i := r2]> tbl0).
Proof.
  intros Htype. unfold update_consistency.
  rewrite (bool_decide_true (upload_type ∈ _)) by done.
  destruct (get_or_create_consistency_record tbl uid target_date)
    as [[i r0] tbl0] eqn:Hget.
  set (r1 := if bool_decide (upload_type = "workout"%string)
             then set_workout_logged true r0 else set_diet_logged true r0).
  assert ((if bool_decide (upload_type = "workout"%string)
           then assign (set_workout_logged true) (i, r0, tbl0)
           else assign (set_diet_logged true) (i, r0, tbl0))
          = (i, r1, <[i := r1]> tbl0)) as ->.
  { unfold r1. by case_bool_decide. }
  destruct (calculate_streak_ends (<[i := r1]> tbl0) uid today)
    as (streak & _ & Hstreak & _).
  destruct (message_without_miss rand streak) as [message Hmsg].
  exists i, r0, tbl0, streak, message. split; [done|]. split; [done|].
  simpl. rewrite Hstreak. simpl. rewrite Hmsg. simpl.
  by rewrite list_insert_insert_eq.
Qed.

(** C10.  An update of type ['workout'] or ['diet'] answers 200 and
    changes, in the record it holds, only the flag named by the type (set
    to true) and [streak_day]: the other flag, the key, the user, the date
    and [cycle_start] keep the values the record had when the handler got
    or created it.  Every other row of the table is left as it was, and no
    flag of any row goes from true to false. *)
Theorem update_changes_only_named_flag (tbl : Table) (uid : Z) (today : Date)
    (rand : nat) (target_date : Date) (upload_type : string) :
  upload_type ∈ ["workout"; "diet"]%string →
  ∃ i r0 tbl0 body tbl',
    get_or_create_consistency_record tbl uid target_date = (i, r0, tbl0) ∧
    update_consistency tbl uid today rand target_date upload_type
      = Some (Ok200 body, tbl') ∧
    tbl0 !! i = Some r0 ∧
    tbl' = <[i := update_record body]> tbl0 ∧
    record_id (update_record body) = record_id r0 ∧
    user_id (update_record body) = user_id r0 ∧
    date (update_record body) = date r0 ∧
    cycle_start (update_record body) = cycle_start r0 ∧
    (upload_type = "workout"%string →
       workout_logged (update_record body) = true ∧
       diet_logged (update_record body) = diet_logged r0) ∧
    (upload_type = "diet"%string →
       diet_logged (update_record body) = true ∧
       workout_logged (update_record body) = workout_logged r0) ∧
    (∀ j r, tbl !! j = Some r → tbl0 !! j = Some r) ∧
    (∀ j r, tbl0 !! j = Some r →
       ∃ r', tbl' !! j = Some r' ∧ (j ≠ i → r' = r) ∧
         (workout_logged r = true → workout_logged r' = true) ∧
         (diet_logged r = true → diet_logged r' = true)).
Proof.
  intros Htype.
  destruct (update_consistency_unfold tbl uid today rand target_date upload_type Htype)
    as (i & r0 & tbl0 & streak & message & Hget & _ & Hupd).
  pose proof Hget as [Hq0 Htbl0]%get_or_create_handle.
  pose proof Hq0 as (Hi & _ & _)%query_day_Some.
  eexists i, r0, tbl0, _, _. split; [done|]. split; [exact Hupd|].
  cbn [update_record].
  assert (upload_type = "workout" ∨ upload_type = "diet")%string as Hcases.
  { rewrite !elem_of_cons in Htype. destruct Htype as [?|[?|Hnil]]; auto.
    by apply not_elem_of_nil in Hnil. }
  split_and!; try done.
  - by destruct Hcases as [-> | ->].
  - by destruct Hcases as [-> | ->].
  - by destruct Hcases as [-> | ->].
  - by destruct Hcases as [-> | ->].
  - by intros ->.
  - by intros ->.
  - intros j r Hj. destruct Htbl0 as [->|[-> _]]; [done|].
    by apply lookup_app_l_Some.
  - intros j r Hj. destruct (decide (j = i)) as [->|Hne].
    + rewrite list_lookup_insert_eq by (by eapply lookup_lt_Some).
      eexists. split; [reflexivity|].
      assert (r = r0) as -> by congruence.
      destruct Hcases as [-> | ->]; simpl; split_and!; auto; done.
    + rewrite list_lookup_insert_ne by done. eauto.
Qed.

Lemma update_changes_only_named_flag_witness :
  ∃ body tbl',
    update_consistency [mkRecord 1 7 100 false true 3 (Some 90)] 7 101 0 100 "workout"
      = Some (Ok200 body, tbl') ∧
    diet_logged (update_record body) = true ∧
    cycle_start (update_record body) = Some 90.
Proof.
  destruct (update_changes_only_named_flag
              [mkRecord 1 7 100 false true 3 (Some 90)] 7 101 0 100 "workout")
    as (i & r0 & tbl0 & body & tbl' & Hget & Hupd & _ & _ & _ & _ & _ & Hcs & Hw & _).
  { rewrite !elem_of_cons. auto. }
  exists body, tbl'. split; [exact Hupd|].
  injection Hget as <- <- <-.
  destruct (Hw eq_refl) as [_ Hdiet]. split; [exact Hdiet|exact Hcs].
Defined.

(** ** The streak stored by an update *)

(** Against C4 as stated: the first workout a new user logs, for today,
    stores [streak_day = 0], although today is now active and the run of
    active days that ends today has length 1. *)
Lemma stored_streak_misses_today :
  (∃ body tbl',
     update_consistency [] 7 100 0 100 "workout" = Some (Ok200 body, tbl') ∧
     workout_logged (update_record body) = true ∧
     streak_day (update_record body) = 0 ∧
     calculate_streak tbl' 7 101 = Some 1) ∧
  ¬ stored_streak_counts_today.
Proof.
  split.
  - eexists _, _. split; [vm_compute; reflexivity|]. vm_compute. done.
  - intros Hclaim.
    specialize (Hclaim [] 7 100 0%nat "workout"%string).
    vm_compute in Hclaim. specialize (Hclaim _ _ eq_refl). discriminate Hclaim.
Qed.

(** C4 (amended).  A log event for today's date stores in the record's
    [streak_day] the backward streak that ends yesterday: the value
    [calculate_streak] has for the user before the update and still has
    after it.  Today's own activity is not counted: the run of active days
    that ends today is one day longer than the stored value. *)
Theorem stored_streak_ends_yesterday (tbl : Table) (uid : Z) (today : Date)
    (rand : nat) (upload_type : string) :
  upload_type ∈ ["workout"; "diet"]%string →
  ∃ body tbl',
    update_consistency tbl uid today rand today upload_type
      = Some (Ok200 body, tbl') ∧
    calculate_streak tbl uid today = Some (streak_day (update_record body)) ∧
    calculate_streak tbl' uid today = Some (streak_day (update_record body)) ∧
    calculate_streak tbl' uid (today + 1)
      = Some (streak_day (update_record body) + 1).
Proof.
  intros Htype.
  destruct (update_consistency_unfold tbl uid today rand today upload_type Htype)
    as (i & r0 & tbl0 & streak & message & Hget & Hstreak & Hupd).
  pose proof Hget as [Hq0 _]%get_or_create_handle.
  pose proof Hq0 as (_ & Hu0 & Hd0)%query_day_Some.
  set (r1 := if bool_decide (upload_type = "workout"%string)
             then set_workout_logged true r0 else set_diet_logged true r0) in *.
  assert (user_id r1 = user_id r0 ∧ date r1 = date r0 ∧ active r1 = true)
    as (Hu1 & Hd1 & Ha1).
  { unfold r1, active. case_bool_decide; simpl; split_and!; try done.
    apply orb_true_r. }
  destruct (calculate_streak_ends (<[i := r1]> tbl0) uid today)
    as (n & Hn & Hcalc & Hrun & Hstop).
  assert (n = streak) as -> by congruence.
  assert (∀ k, 0 ≤ k < streak → day_active tbl uid (today - 1 - k) = true) as Hrun0.
  { intros k Hk. specialize (Hrun k Hk).
    rewrite (day_active_after_assign tbl uid today i r0 tbl0 r1) in Hrun by done.
    by rewrite decide_False in Hrun by lia. }
  assert (day_active tbl uid (today - 1 - streak) = false) as Hstop0.
  { rewrite (day_active_after_assign tbl uid today i r0 tbl0 r1) in Hstop by done.
    by rewrite decide_False in Hstop by lia. }
  eexists _, _. split; [exact Hupd|]. cbn [update_record streak_day set_streak_day].
  split_and!.
  - by apply calculate_streak_run.
  - apply calculate_streak_run; [done|..].
    + intros k Hk.
      rewrite (day_active_after_assign tbl uid today i r0 tbl0) by done.
      rewrite decide_False by lia. by apply Hrun0.
    + rewrite (day_active_after_assign tbl uid today i r0 tbl0) by done.
      by rewrite decide_False by lia.
  - apply calculate_streak_run; [lia|..].
    + intros k Hk.
      rewrite (day_active_after_assign tbl uid today i r0 tbl0) by done.
      case_decide as Hk0; [done|].
      replace (today + 1 - 1 - k) with (today - 1 - (k - 1)) by lia.
      apply Hrun0. lia.
    + rewrite (day_active_after_assign tbl uid today i r0 tbl0) by done.
      rewrite decide_False by lia.
      replace (today + 1 - 1 - (streak + 1)) with (today - 1 - streak) by lia.
      done.
Qed.

Lemma stored_streak_ends_yesterday_witness :
  ∃ body tbl',
    update_consistency [mkRecord 1 7 99 true false 0 (Some 99)] 7 100 0 100 "diet"
      = Some (Ok200 body, tbl') ∧
    streak_day (update_record body) = 1.
Proof.
  destruct (stored_streak_ends_yesterday
              [mkRecord 1 7 99 true false 0 (Some 99)] 7 100 0 "diet")
    as (body & tbl' & Hupd & Hbefore & _).
  { rewrite !elem_of_cons. auto. }
  exists body, tbl'. split; [exact Hupd|].
  vm_compute in Hbefore. by injection Hbefore.
Defined.

(** ** The aggregators *)

Lemma guarded_percentage_value count total :
  guarded_percentage count total
  = Returns (if bool_decide (total > 0) then rounded_percent count total else Int 0).
Proof.
  unfold guarded_percentage, ratio_percent, truediv, rounded_percent.
  case_bool_decide as Hpos; [|done].
  rewrite bool_decide_false by lia. done.
Qed.

Lemma weekly_percentage_value count :
  weekly_percentage count = Returns (rounded_percent count 7).
Proof. done. Qed.

Lemma window_stats_value records current_streak :
  window_stats records current_streak
  = Returns
      (let total := Z.of_nat (length records) in
       let pct count :=
         if bool_decide (total > 0) then rounded_percent count total else Int 0 in
       mkStatistics current_streak total
         (count_where workout_logged records) (count_where diet_logged records)
         (count_where (λ r, workout_logged r && diet_logged r) records)
         (pct (count_where workout_logged records))
         (pct (count_where diet_logged records))
         (pct (count_where (λ r, workout_logged r && diet_logged r) records))).
Proof.
  unfold window_stats. rewrite !guarded_percentage_value. done.
Qed.

Lemma get_consistency_data_value tbl uid today rand :
  ∃ current_streak message,
    calculate_streak tbl uid today = Some current_streak ∧
    get_motivational_message rand current_streak 0 = Returns message ∧
    ∃ stats,
      window_stats (query_range_asc tbl uid (today - 29) today) current_streak
        = Returns stats ∧
      get_consistency_data tbl uid today rand
      = Some (Ok200 (mkConsistencyData
                       (query_range_asc tbl uid (today - 29) today) stats
                       (get_cycle_info (query_latest tbl uid) today)
                       (get_today_status (snd <$> query_day tbl uid today))
                       message)).
Proof.
  destruct (calculate_streak_ends tbl uid today) as (n & _ & Hn & _).
  destruct (message_without_miss rand n) as [message Hmsg].
  exists n, message. split; [done|]. split; [done|].
  eexists. split; [apply window_stats_value|].
  unfold get_consistency_data. rewrite Hn. simpl.
  rewrite window_stats_value. simpl. rewrite Hmsg. done.
Qed.

(** One third is 33.3 per cent, six sevenths 85.7, and nothing of nothing
    the integer 0. *)
Example percentages_round_to_one_decimal :
  guarded_percentage 1 3
    = Returns (Float (SFdiv prec emax (float_of_int 333) (float_of_int 10))) ∧
  guarded_percentage 6 7
    = Returns (Float (SFdiv prec emax (float_of_int 857) (float_of_int 10))) ∧
  guarded_percentage 3 3 = Returns (Float (float_of_int 100)) ∧
  guarded_percentage 0 0 = Returns (Int 0).
Proof. vm_compute. done. Qed.



(** Against C8 as stated: the formula fails when the latest record starts
    its cycle after today (a record logged for a future date).  With the
    cycle starting 5 days from now [cycle_day] is -4 and [days_remaining] is
    30, not [max(0, 30 - cycle_day) = 34]. *)
Lemma days_remaining_of_future_cycle :
  (∃ data,
     get_consistency_data [mkRecord 1 7 105 true false 0 (Some 105)] 7 100 0
       = Some (Ok200 data) ∧
     cycle_day (cycle_info data) = -4 ∧
     days_remaining (cycle_info data) = 30 ∧
     Z.max 0 (30 - cycle_day (cycle_info data)) = 34) ∧
  ¬ days_remaining_is_clamped_difference.
Proof.
  pose (tbl := [mkRecord 1 7 105 true false 0 (Some 105)]).
  destruct (get_consistency_data_value tbl 7 100 0) as (n & m & _ & _ & st & _ & Hdata).
  split.
  - eexists. split; [exact Hdata|]. vm_compute. done.
  - intros Hclaim.
    destruct (Hclaim tbl 7 100 0%nat _ 105 _ eq_refl eq_refl Hdata) as [_ Hrem].
    vm_compute in Hrem. discriminate Hrem.
Qed.

(** C8 (amended).  For a user whose latest record (a record of maximal
    date) carries a [cycle_start], [cycle_info] reports that [cycle_start],
    [cycle_day = min(30, (today - cycle_start).days + 1)], and
    [days_remaining = max(0, 30 - cycle_day)] when [cycle_day > 0] and 30
    otherwise; [cycle_day > 0] holds whenever the cycle did not start after
    today. *)
Theorem cycle_info_of_latest_record (tbl : Table) (uid : Z) (today : Date)
    (rand : nat) (latest : ConsistencyRecord) (start : Date) :
  query_latest tbl uid = Some latest →
  cycle_start latest = Some start →
  ∃ data,
    get_consistency_data tbl uid today rand = Some (Ok200 data) ∧
    is_latest tbl uid latest ∧
    info_cycle_start (cycle_info data) = Some start ∧
    cycle_day (cycle_info data) = Z.min 30 (today - start + 1) ∧
    days_remaining (cycle_info data)
      = (if bool_decide (cycle_day (cycle_info data) > 0)
         then Z.max 0 (30 - cycle_day (cycle_info data)) else 30) ∧
    (start ≤ today →
       days_remaining (cycle_info data) = Z.max 0 (30 - cycle_day (cycle_info data))).
Proof.
  intros Hlatest Hstart.
  destruct (get_consistency_data_value tbl uid today rand)
    as (n & message & _ & _ & stats & _ & Hdata).
  eexists. split; [exact Hdata|]. cbn [cycle_info].
  rewrite Hlatest. unfold get_cycle_info. rewrite Hstart.
  split; [by apply query_latest_Some|].
  case_bool_decide as Hcap; cbn [info_cycle_start cycle_day days_remaining].
  - split_and!; [done|lia|done|]. intros _. by rewrite bool_decide_true by lia.
  - split_and!; [done|lia|done|]. intros Hpast. by rewrite bool_decide_true by lia.
Qed.

Lemma cycle_info_of_latest_record_witness :
  ∃ data,
    get_consistency_data [mkRecord 1 7 95 true false 0 (Some 93)] 7 100 0
      = Some (Ok200 data) ∧
    cycle_day (cycle_info data) = 8 ∧ days_remaining (cycle_info data) = 22.
Proof.
  destruct (cycle_info_of_latest_record
              [mkRecord 1 7 95 true false 0 (Some 93)] 7 100 0
              (mkRecord 1 7 95 true false 0 (Some 93)) 93 eq_refl eq_refl)
    as (data & Hdata & _ & _ & Hday & _ & Hrem).
  exists data. split; [exact Hdata|].
  rewrite (Hrem ltac:(lia)), Hday. split; reflexivity.
Defined.

(** The first record of the sorted range dated [d] is a record of the user
    in the table, and there is one whenever the table has a record of the
    user for [d] and [d] lies in the range. *)
Lemma range_find_Some tbl uid start_date end_date d i r :
  list_find (λ r, date r = d) (query_range_asc tbl uid start_date end_date)
    = Some (i, r) →
  r ∈ tbl ∧ user_id r = uid ∧ date r = d.
Proof.
  intros (Hi & Hd & _)%list_find_Some.
  apply list_elem_of_lookup_2 in Hi. unfold query_range_asc in Hi.
  rewrite merge_sort_Permutation in Hi.
  apply list_elem_of_filter in Hi as [(Hu & _ & _) Hin]. done.
Qed.

Lemma range_find_None tbl uid start_date end_date d :
  start_date ≤ d ≤ end_date →
  list_find (λ r, date r = d) (query_range_asc tbl uid start_date end_date) = None →
  ∀ r, r ∈ tbl → user_id r = uid → date r ≠ d.
Proof.
  intros Hrange Hnone r Hin Hu Hd.
  rewrite list_find_None, Forall_forall in Hnone. apply (Hnone r); [|done].
  unfold query_range_asc. rewrite merge_sort_Permutation.
  apply list_elem_of_filter. unfold by_user_range. split; [|done]. lia.
Qed.

Lemma build_daily_summary_lookup records start_date (k : nat) :
  (k < 7)%nat →
  build_daily_summary records start_date !! k
  = Some (day_summary records (start_date + Z.of_nat k)).
Proof.
  intros Hk. unfold build_daily_summary.
  rewrite list_lookup_fmap, lookup_seqZ_lt by lia. simpl. do 2 f_equal; lia.
Qed.

Lemma count_days_bounds key days : 0 ≤ count_days key days ≤ Z.of_nat (length days).
Proof.
  unfold count_days.
  pose proof (length_filter (λ d, key d = true) days). lia.
Qed.

(** A week with three records, one of them of another user: seven entries,
    and percentages over 7. *)
Example weekly_summary_of_sparse_week :
  let tbl := [mkRecord 1 7 100 true true 0 (Some 95);
              mkRecord 2 8 99 true true 0 (Some 99);
              mkRecord 3 7 97 true false 0 (Some 95)] in
  get_weekly_summary tbl 7 100
  = Ok200 (mkWeeklySummary
      [mkDaySummary 94 "Wednesday" false false false;
       mkDaySummary 95 "Thursday" false false false;
       mkDaySummary 96 "Friday" false false false;
       mkDaySummary 97 "Saturday" true false false;
       mkDaySummary 98 "Sunday" false false false;
       mkDaySummary 99 "Monday" false false false;
       mkDaySummary 100 "Tuesday" true true true]
      (mkWeeklyStats 2 1 1
         (Float (SFdiv prec emax (float_of_int 286) (float_of_int 10)))
         (Float (SFdiv prec emax (float_of_int 143) (float_of_int 10)))
         (Float (SFdiv prec emax (float_of_int 143) (float_of_int 10))))).
Proof. vm_compute. done. Qed.

(** C6.  [get_weekly_summary] answers 200 with exactly 7 entries, the
    [k]-th for the calendar day [end_date - 6 + k], so one for each of the 7
    days that end at [end_date].  The entry of a day without a record of
    the user has the three flags false; the entry of a day with one carries
    the flags of a record of the user for that day.  Each weekly percentage
    is the count of entries with the flag, between 0 and 7, divided by 7,
    times 100, rounded to one decimal place, whatever the number of
    records. *)
Theorem weekly_summary_has_seven_days (tbl : Table) (uid : Z) (end_date : Date) :
  ∃ summary,
    get_weekly_summary tbl uid end_date = Ok200 summary ∧
    let days := daily_summary summary in
    let stats := weekly_stats summary in
    length days = 7%nat ∧
    (∀ k : nat, (k < 7)%nat →
       ∃ entry, days !! k = Some entry ∧
         summary_date entry = end_date - 6 + Z.of_nat k ∧
         ((∀ r, r ∈ tbl → user_id r = uid → date r ≠ summary_date entry) →
            summary_workout_logged entry = false ∧
            summary_diet_logged entry = false ∧
            summary_both_complete entry = false) ∧
         ((∃ r, r ∈ tbl ∧ user_id r = uid ∧ date r = summary_date entry) →
            ∃ r, r ∈ tbl ∧ user_id r = uid ∧ date r = summary_date entry ∧
              summary_workout_logged entry = workout_logged r ∧
              summary_diet_logged entry = diet_logged r ∧
              summary_both_complete entry = workout_logged r && diet_logged r)) ∧
    weekly_workout_days stats = count_days summary_workout_logged days ∧
    weekly_diet_days stats = count_days summary_diet_logged days ∧
    complete_days stats = count_days summary_both_complete days ∧
    0 ≤ weekly_workout_days stats ≤ 7 ∧
    0 ≤ weekly_diet_days stats ≤ 7 ∧
    0 ≤ complete_days stats ≤ 7 ∧
    weekly_workout_percentage stats = rounded_percent (weekly_workout_days stats) 7 ∧
    weekly_diet_percentage stats = rounded_percent (weekly_diet_days stats) 7 ∧
    weekly_completion_percentage stats = rounded_percent (complete_days stats) 7.
Proof.
  eexists. split.
  { unfold get_weekly_summary. rewrite !weekly_percentage_value. reflexivity. }
  cbn [daily_summary weekly_stats weekly_workout_days weekly_diet_days
       complete_days weekly_workout_percentage weekly_diet_percentage
       weekly_completion_percentage].
  set (records := query_range_asc tbl uid (end_date - 6) end_date).
  assert (length (build_daily_summary records (end_date - 6)) = 7%nat) as Hlen by done.
  split; [done|]. split.
  - intros k Hk. rewrite build_daily_summary_lookup by done.
    eexists. split; [reflexivity|]. unfold day_summary.
    destruct (list_find (λ r, date r = end_date - 6 + Z.of_nat k) records)
      as [[i r]|] eqn:Hfind; simpl.
    + apply range_find_Some in Hfind as (Hin & Hu & Hd).
      split; [done|]. split.
      * intros Hnone. by destruct (Hnone r Hin Hu).
      * intros _. exists r. done.
    + split; [done|]. split; [done|].
      intros (r & Hin & Hu & Hd). exfalso.
      eapply (range_find_None tbl uid (end_date - 6) end_date); eauto. lia.
  - pose proof (count_days_bounds summary_workout_logged
                  (build_daily_summary records (end_date - 6))).
    pose proof (count_days_bounds summary_diet_logged
                  (build_daily_summary records (end_date - 6))).
    pose proof (count_days_bounds summary_both_complete
                  (build_daily_summary records (end_date - 6))).
    rewrite Hlen in *. split_and!; (done || lia).
Qed.

(** ** The motivational message *)

Lemma random_choice_elem {A : Type} rand (seq : list A) :
  seq ≠ [] → ∃ x, random_choice rand seq = Returns x ∧ x ∈ seq.
Proof.
  intros Hne. unfold random_choice.
  assert (Nat.modulo rand (length seq) < length seq)%nat as Hlt.
  { apply Nat.mod_upper_bound. destruct seq; [done|simpl; lia]. }
  apply lookup_lt_is_Some in Hlt as [x Hx]. rewrite Hx.
  exists x. split; [done|]. by eapply list_elem_of_lookup_2.
Qed.

Lemma missed_message_is_no_bucket_message message b streak :
  message ∈ missed_messages → message ≠ bucket_message b streak.
Proof.
  unfold missed_messages. rewrite !elem_of_cons, elem_of_nil.
  intros Hin Heq. destruct b; simpl in Heq;
    repeat (destruct Hin as [->|Hin]; [discriminate Heq|]); done.
Qed.

(** C5.  With [missed_days > 0], whatever the streak and the number the
    random source gives, the message is one of the 10 comeback messages and
    is the message of no streak bucket (so never the legendary one).  With
    [missed_days = 0] the message is that of the bucket of the streak among
    [0], [1], [[2,7)], [[7,14)], [[14,21)], [[21,30)] and [[30,∞)], whatever the
    random source gives. *)
Theorem comeback_pool_overrides_streak (rand : nat) (streak missed_days : Z) :
  length missed_messages = 10%nat ∧
  (missed_days > 0 →
     ∃ message,
       get_motivational_message rand streak missed_days = Returns message ∧
       message ∈ missed_messages ∧
       ∀ b s, message ≠ bucket_message b s) ∧
  (missed_days = 0 →
     ∀ b, bucket_of streak = Some b →
       get_motivational_message rand streak missed_days
         = Returns (bucket_message b streak)).
Proof.
  split; [done|]. split.
  - intros Hmissed. unfold get_motivational_message.
    rewrite bool_decide_true by done.
    destruct (random_choice_elem rand missed_messages) as (message & Hm & Hin); [done|].
    exists message. split_and!; [done..|].
    intros b s. by apply missed_message_is_no_bucket_message.
  - intros -> b. unfold get_motivational_message, bucket_of.
    rewrite (bool_decide_false (0 > 0)) by lia.
    repeat case_bool_decide; try lia; try done; by intros [= <-].
Qed.

Lemma comeback_pool_overrides_streak_witness :
  (∃ message,
     get_motivational_message 3 45 1 = Returns message ∧
     message ≠ bucket_message From30 45) ∧
  get_motivational_message 3 45 0 = Returns (bucket_message From30 45).
Proof.
  destruct (comeback_pool_overrides_streak 3 45 1) as (_ & Hmissed & _).
  destruct (comeback_pool_overrides_streak 3 45 0) as (_ & _ & Hbucket).
  split.
  - destruct (Hmissed ltac:(lia)) as (message & Hm & _ & Hno).
    exists message. split; [exact Hm|apply Hno].
  - apply (Hbucket eq_refl). reflexivity.
Defined.

(** ** The sweeps *)

Lemma same_tables_refl w : same_tables w w.
Proof. done. Qed.

Lemma same_tables_trans w1 w2 w3 :
  same_tables w1 w2 → same_tables w2 w3 → same_tables w1 w3.
Proof. unfold same_tables. intros (-> & -> & ->) (-> & -> & ->). done. Qed.

Lemma quiet_safe (m : M unit) : quiet m → safe m.
Proof. intros Hq w. destruct (Hq w) as [Hd Ht]. by rewrite Hd. Qed.

Lemma safe_ret {A : Type} (a : A) : safe (mret a : M A).
Proof. intros w. done. Qed.

Lemma safe_bind {A B : Type} (m : M A) (f : A → M B) :
  safe m → (∀ a, safe (f a)) → safe (m ≫= f).
Proof.
  intros Hm Hf w. unfold mbind, M_bind. specialize (Hm w).
  destruct (m w) as [[a|e|] w1]; simpl in Hm.
  - destruct (Hf a w1) as [Hend Ht]. split; [done|].
    eapply same_tables_trans; [apply Hm|done].
  - split; [done|apply Hm].
  - by destruct Hm.
Qed.

Lemma safe_try_except {A : Type} (body : M A) (handler : Exception → M A) :
  safe body → (∀ e, safe (handler e)) → safe (try_except body handler).
Proof.
  intros Hb Hh w. unfold try_except. specialize (Hb w).
  destruct (body w) as [[a|e|] w1]; simpl in Hb; [exact Hb| |exact Hb].
  destruct (Hh e w1) as [Hend Ht]. split; [done|].
  eapply same_tables_trans; [apply Hb|done].
Qed.

(** An exception raised by the body is caught; the handler runs in the
    world the body left. *)
Lemma quiet_try_except (body : M unit) (handler : Exception → M unit) :
  safe body → (∀ e, quiet (handler e)) → quiet (try_except body handler).
Proof.
  intros Hb Hh w. unfold try_except. specialize (Hb w).
  destruct (body w) as [[[]|e|] w1]; simpl in Hb;
    [split; [done|apply Hb]| |by destruct Hb].
  destruct (Hh e w1) as [Hend Ht]. split; [done|].
  eapply same_tables_trans; [apply Hb|done].
Qed.

Lemma quiet_write_log entry : quiet (write_log entry).
Proof. intros w. done. Qed.

Lemma safe_date_today : safe date_today.
Proof. intros w. done. Qed.

Lemma safe_lift_result {A : Type} (r : result A) : safe (lift_result r).
Proof. intros w. by destruct r. Qed.

Lemma quiet_for_each {A : Type} (body : A → M unit) (xs : list A) :
  (∀ x, quiet (body x)) →
  ∀ w, for_each xs body w = (Done tt, after_each body xs w) ∧
       same_tables w (after_each body xs w).
Proof.
  intros Hbody. induction xs as [|x xs IH]; intros w; [done|].
  cbn [for_each after_each foldl]. unfold mbind, M_bind.
  destruct (Hbody x w) as [Hdone Ht].
  destruct (body x w) as [o w1]. simpl in *. subst o.
  destruct (IH w1) as [-> Ht']. split; [done|].
  eapply same_tables_trans; done.
Qed.

Section SweepProperties.

Variable db_fault : nat → option Exception.
Variable random : nat → nat.
Variable float_str : spec_float → string.

Lemma safe_db_query {A : Type} (q : World → A) : safe (db_query db_fault q).
Proof. intros w. unfold db_query. by destruct (db_fault (queries w)). Qed.

Lemma safe_choose {A : Type} (seq : list A) : safe (choose random seq).
Proof. intros w. unfold choose. by destruct (random_choice _ seq). Qed.

(** The walk of the service ends within the iterations it is given,
    whatever the database raises on the way. *)
Lemma service_streak_loop_ends uid fuel :
  ∀ check_date current_streak w,
    (rows_upto (db_records w) check_date < fuel)%nat →
    (_calculate_streak_loop db_fault fuel uid check_date current_streak w).1
      ≠ Unfinished ∧
    same_tables w
      (_calculate_streak_loop db_fault fuel uid check_date current_streak w).2.
Proof.
  induction fuel as [|fuel IH]; intros d acc w Hfuel; [lia|].
  cbn [_calculate_streak_loop]. unfold mbind, M_bind, query_record, db_query.
  destruct (db_fault (queries w)); [done|]. simpl.
  destruct (query_day (db_records w) uid d) as [[i r]|] eqn:Hq; [|done]. simpl.
  destruct (active r); [|done].
  apply query_day_Some in Hq as (Hi & _ & Hd).
  pose proof (rows_upto_step (db_records w) r) as Hstep.
  rewrite Hd in Hstep.
  edestruct (IH (d - 1) (acc + 1)) as [Hend Ht]; [|split; [exact Hend|]].
  - simpl. apply list_elem_of_lookup_2 in Hi. specialize (Hstep Hi). lia.
  - eapply same_tables_trans; [|exact Ht]. done.
Qed.

Lemma safe_calculate_streak uid : safe (_calculate_streak db_fault uid).
Proof.
  intros w. unfold _calculate_streak, mbind, M_bind, date_today.
  apply service_streak_loop_ends.
  pose proof (rows_upto_length (db_records w) (clock w - 1)). lia.
Qed.

Lemma quiet_store_notification uid message notification_type :
  quiet (_store_notification uid message notification_type).
Proof.
  apply quiet_try_except; [apply quiet_safe|intros e]; apply quiet_write_log.
Qed.

Lemma safe_reminder_body user missed_workout missed_diet :
  safe (reminder_body db_fault random user missed_workout missed_diet).
Proof.
  apply safe_bind; [apply safe_calculate_streak|intros current_streak].
  apply safe_bind; [apply safe_choose|intros message].
  apply safe_bind; [apply quiet_safe, quiet_write_log|intros _].
  apply quiet_safe, quiet_store_notification.
Qed.

Lemma quiet_send_reminder_notification user missed_workout missed_diet :
  quiet (_send_reminder_notification db_fault random user missed_workout missed_diet).
Proof.
  apply quiet_try_except; [apply safe_reminder_body|intros e; apply quiet_write_log].
Qed.

Lemma safe_check_user today user : safe (check_user db_fault random today user).
Proof.
  apply safe_bind; [apply safe_db_query|intros today_record].
  cbv zeta.
  match goal with |- safe (if ?missed then _ else _) => destruct missed end;
    [|apply safe_ret].
  apply quiet_safe, quiet_send_reminder_notification.
Qed.

Lemma quiet_daily_iteration today user :
  quiet (daily_iteration db_fault random today user).
Proof.
  apply quiet_try_except; [apply safe_check_user|intros e; apply quiet_write_log].
Qed.

Lemma safe_weekly_body user : safe (weekly_body db_fault random float_str user).
Proof.
  apply safe_bind; [apply safe_date_today|intros end_date].
  apply safe_bind; [apply safe_db_query|intros records].
  apply safe_bind; [apply safe_lift_result|intros q].
  apply safe_bind; [apply safe_choose|intros message].
  apply safe_bind; [apply quiet_safe, quiet_write_log|intros _].
  apply quiet_safe, quiet_store_notification.
Qed.

Lemma quiet_send_weekly_motivation_notification user :
  quiet (_send_weekly_motivation_notification db_fault random float_str user).
Proof.
  apply quiet_try_except; [apply safe_weekly_body|intros e; apply quiet_write_log].
Qed.

Lemma quiet_weekly_iteration user :
  quiet (weekly_iteration db_fault random float_str user).
Proof.
  apply quiet_try_except; [|intros e; apply quiet_write_log].
  apply quiet_safe, quiet_send_weekly_motivation_notification.
Qed.

Lemma safe_for_each {A : Type} (body : A → M unit) (xs : list A) :
  (∀ x, quiet (body x)) → safe (for_each xs body).
Proof.
  intros Hbody w. destruct (quiet_for_each body xs Hbody w) as [-> Ht]. done.
Qed.

Lemma quiet_send_daily_reminders : quiet (send_daily_reminders db_fault random).
Proof.
  apply quiet_try_except; [|intros e; apply quiet_write_log].
  apply safe_bind; [apply quiet_safe, quiet_write_log|intros _].
  apply safe_bind; [apply safe_date_today|intros today].
  apply safe_bind; [apply safe_db_query|intros users].
  apply safe_for_each. intros user. apply quiet_daily_iteration.
Qed.

Lemma quiet_send_weekly_motivation :
  quiet (send_weekly_motivation db_fault random float_str).
Proof.
  apply quiet_try_except; [|intros e; apply quiet_write_log].
  apply safe_bind; [apply quiet_safe, quiet_write_log|intros _].
  apply safe_bind; [apply safe_db_query|intros users].
  apply safe_for_each. intros user. apply quiet_weekly_iteration.
Qed.

End SweepProperties.

Lemma try_except_caught {A : Type} (body : M A) (handler : Exception → M A) w e w1 :
  body w = (Failed e, w1) → try_except body handler w = handler e w1.
Proof. unfold try_except. by intros ->. Qed.

(** C9.  Whatever the database raises and whenever it does, both sweeps end
    normally: no exception leaves [send_daily_reminders] or
    [send_weekly_motivation].  An exception raised while one user is
    processed is caught in that user's iteration, which logs it as an error
    and ends normally.  When the query for the active users succeeds, the
    sweep runs the iteration of every active user, in order, each from the
    world the previous one left, whether or not earlier ones failed. *)
Theorem sweep_survives_user_failure (db_fault : nat → option Exception)
    (random : nat → nat) (float_str : spec_float → string) (w : World) :
  (send_daily_reminders db_fault random w).1 = Done tt ∧
  (send_weekly_motivation db_fault random float_str w).1 = Done tt ∧
  (∀ today user w0,
     (daily_iteration db_fault random today user w0).1 = Done tt ∧
     ∀ e w1,
       check_user db_fault random today user w0 = (Failed e, w1) →
       daily_iteration db_fault random today user w0
       = (Done tt,
          (logger_error ("Error checking user " +:+ pretty (u_id user)
                         +:+ ": " +:+ exception_str e) w1).2)) ∧
  (∀ user w0,
     (weekly_iteration db_fault random float_str user w0).1 = Done tt ∧
     ∀ e w1,
       weekly_body db_fault random float_str user w0 = (Failed e, w1) →
       weekly_iteration db_fault random float_str user w0
       = (Done tt,
          (logger_error ("Error sending weekly motivation to user "
                         +:+ pretty (u_id user) +:+ ": " +:+ exception_str e) w1).2)) ∧
  (db_fault (queries w) = None →
     let active_users := filter (λ u, is_active u = true) (db_users w) in
     send_daily_reminders db_fault random w
     = (Done tt,
        after_each (daily_iteration db_fault random (clock w)) active_users
          (asked 1 (logger_info "Checking for users who need daily reminders..." w).2)) ∧
     send_weekly_motivation db_fault random float_str w
     = (Done tt,
        after_each (weekly_iteration db_fault random float_str) active_users
          (asked 1 (logger_info "Sending weekly motivation messages..." w).2))).
Proof.
  split_and!.
  - apply quiet_send_daily_reminders.
  - apply quiet_send_weekly_motivation.
  - intros today user w0. split; [apply quiet_daily_iteration|].
    intros e w1 Hfail. unfold daily_iteration.
    by rewrite (try_except_caught _ _ _ _ _ Hfail).
  - intros user w0. split; [apply quiet_weekly_iteration|].
    intros e w1 Hfail. unfold weekly_iteration, _send_weekly_motivation_notification.
    unfold try_except at 1.
    by rewrite (try_except_caught _ _ _ _ _ Hfail).
  - intros Hquery. split.
    + unfold send_daily_reminders, try_except, mbind, M_bind, logger_info,
        write_log, date_today, query_active_users, db_query. simpl.
      rewrite Hquery. simpl.
      match goal with |- context [for_each ?us ?body ?w0] =>
        destruct (quiet_for_each body us
                    (quiet_daily_iteration db_fault random (clock w)) w0) as [-> _]
      end. done.
    + unfold send_weekly_motivation, try_except, mbind, M_bind, logger_info,
        write_log, query_active_users, db_query. simpl.
      rewrite Hquery. simpl.
      match goal with |- context [for_each ?us ?body ?w0] =>
        destruct (quiet_for_each body us
                    (quiet_weekly_iteration db_fault random float_str) w0) as [-> _]
      end. done.
Qed.

Lemma weekly_summary_has_seven_days_witness :
  ∃ summary,
    get_weekly_summary [mkRecord 1 7 97 true false 0 (Some 95)] 7 100
      = Ok200 summary ∧
    length (daily_summary summary) = 7%nat ∧
    weekly_workout_percentage (weekly_stats summary)
      = rounded_percent (weekly_workout_days (weekly_stats summary)) 7.
Proof.
  destruct (weekly_summary_has_seven_days
              [mkRecord 1 7 97 true false 0 (Some 95)] 7 100)
    as (summary & Hsum & Hlen & _ & _ & _ & _ & _ & _ & _ & Hpct & _).
  exists summary. split; [exact Hsum|]. split; [exact Hlen|exact Hpct].
Defined.

(** The second active user fails; the sweep logs the error and goes on to
    the last one, who has not logged today and gets a reminder. *)
Lemma sweep_survives_user_failure_witness :
  send_daily_reminders example_fault (λ _, 0%nat) example_world
  = (Done tt,
     mkWorld (db_users example_world) (db_records example_world) 100
       [INFO "Checking for users who need daily reminders...";
        ERROR "Error checking user 2: database is locked";
        INFO "NOTIFICATION for carol@example.org: Hey carol! Don't break your 1-day streak! 💪";
        INFO "Stored notification for user 3: Hey carol! Don't break your 1-day streak! 💪"]
       6 1).
Proof.
  destruct (sweep_survives_user_failure example_fault (λ _, 0%nat)
              (λ _, "100.0"%string) example_world) as (_ & _ & _ & _ & Hsweep).
  destruct (Hsweep eq_refl) as [-> _]. vm_compute. reflexivity.
Defined.

(** ** The invariant of the table and the cycle reset *)

Lemma one_record_per_day_insert tbl i r0 r1 :
  one_record_per_day tbl → tbl !! i = Some r0 →
  user_id r1 = user_id r0 → date r1 = date r0 →
  one_record_per_day (<[i := r1]> tbl).
Proof.
  intros Huniq Hi Hu Hd j k x y Hj Hk Hux Hdx.
  apply list_lookup_insert_Some in Hj as [(<- & <- & _)|[Hne Hj]];
    apply list_lookup_insert_Some in Hk as [(<- & <- & _)|[Hne' Hk]];
    try done.
  - eapply (Huniq i k r0 y); (done || congruence).
  - eapply (Huniq j i x r0); (done || congruence).
  - by eapply (Huniq j k x y).
Qed.

Lemma one_record_per_day_add tbl r :
  one_record_per_day tbl → query_day tbl (user_id r) (date r) = None →
  one_record_per_day (tbl ++ [r]).
Proof.
  intros Huniq Hnone j k x y Hj Hk Hux Hdx.
  pose proof (query_day_None _ _ _ Hnone) as Hfresh.
  apply lookup_app_Some in Hj as [Hj|[Hlj Hj]];
    apply lookup_app_Some in Hk as [Hk|[Hlk Hk]].
  - by eapply (Huniq j k x y).
  - apply list_lookup_singleton_Some in Hk as [_ <-].
    exfalso. apply (Hfresh x); [by eapply list_elem_of_lookup_2|done..].
  - apply list_lookup_singleton_Some in Hj as [_ <-].
    exfalso. apply (Hfresh y); [by eapply list_elem_of_lookup_2|done..].
  - apply list_lookup_singleton_Some in Hj as [Hj0 _].
    apply list_lookup_singleton_Some in Hk as [Hk0 _]. lia.
Qed.

Lemma get_or_create_keeps_invariant tbl uid target_date i r tbl0 :
  one_record_per_day tbl →
  get_or_create_consistency_record tbl uid target_date = (i, r, tbl0) →
  one_record_per_day tbl0.
Proof.
  intros Huniq Hget.
  pose proof Hget as [Hq [->|[-> Hnone]]]%get_or_create_handle; [done|].
  apply query_day_Some in Hq as (_ & Hu & Hd).
  apply one_record_per_day_add; [done|]. by rewrite Hu, Hd.
Qed.

(** X1.  An update keeps the invariant of the data model: a table with at
    most one record per user and day still has at most one afterwards,
    whatever the handler answers. *)
Theorem update_keeps_one_record_per_day (tbl : Table) (uid : Z) (today : Date)
    (rand : nat) (target_date : Date) (upload_type : string)
    (response : Response UpdateBody) (tbl' : Table) :
  one_record_per_day tbl →
  update_consistency tbl uid today rand target_date upload_type
    = Some (response, tbl') →
  one_record_per_day tbl'.
Proof.
  intros Huniq Hupd.
  destruct (decide (upload_type ∈ ["workout"; "diet"]%string)) as [Htype|Htype].
  - destruct (update_consistency_unfold tbl uid today rand target_date upload_type Htype)
      as (i & r0 & tbl0 & streak & message & Hget & _ & Heq).
    rewrite Heq in Hupd. injection Hupd as _ <-.
    pose proof Hget as [(Hi & _ & _)%query_day_Some _]%get_or_create_handle.
    eapply one_record_per_day_insert; [by eapply get_or_create_keeps_invariant|done|..];
      by case_bool_decide.
  - unfold update_consistency in Hupd.
    rewrite (bool_decide_false (upload_type ∈ _)) in Hupd by done.
    by injection Hupd as _ <-.
Qed.

Lemma update_keeps_one_record_per_day_witness :
  ∃ response tbl',
    update_consistency [mkRecord 1 7 99 true false 0 (Some 99)] 7 100 0 100 "diet"
      = Some (response, tbl') ∧
    one_record_per_day tbl'.
Proof.
  eexists _, _. split; [vm_compute; reflexivity|].
  eapply (update_keeps_one_record_per_day
            [mkRecord 1 7 99 true false 0 (Some 99)] 7 100 0 100 "diet").
  - intros [|i] [|j] r1 r2; simpl; intros [= <-] [= <-]; done.
  - vm_compute. reflexivity.
Defined.

(** X2.  [reset_cycle] leaves a record of the user for today whose
    [cycle_start] is today, whatever the cycle was before, and answers
    today. *)
Theorem reset_cycle_starts_today (tbl : Table) (uid : Z) (today : Date) :
  ∃ i record,
    (reset_cycle tbl uid today).1 = today ∧
    query_day (reset_cycle tbl uid today).2 uid today = Some (i, record) ∧
    cycle_start record = Some today.
Proof.
  unfold reset_cycle.
  destruct (get_or_create_consistency_record tbl uid today)
    as [[i r0] tbl0] eqn:Hget.
  pose proof Hget as [Hq _]%get_or_create_handle.
  pose proof Hq as (Hi & _ & _)%query_day_Some.
  exists i, (set_cycle_start (Some today) r0). simpl. split; [done|].
  rewrite (query_day_insert uid today _ tbl0 i r0) by done.
  rewrite Hq. simpl. by rewrite decide_True.
Qed.

(** ** What one record per day gives the aggregators *)

Lemma one_record_per_day_tail x tbl :
  one_record_per_day (x :: tbl) → one_record_per_day tbl.
Proof.
  intros Huniq i j r1 r2 Hi Hj Hu Hd.
  assert (S i = S j) as [= ->]; [|done].
  by eapply (Huniq (S i) (S j) r1 r2).
Qed.

(** Records of one user selected from such a table have distinct dates. *)
Lemma selected_dates_NoDup (P : ConsistencyRecord → Prop)
    `{∀ r, Decision (P r)} uid tbl :
  (∀ r, P r → user_id r = uid) →
  one_record_per_day tbl →
  NoDup (date <$> filter P tbl).
Proof.
  intros Huser. induction tbl as [|x tbl IH]; intros Huniq; [constructor|].
  specialize (IH (one_record_per_day_tail _ _ Huniq)).
  rewrite filter_cons. case_decide as HPx; [|done].
  rewrite fmap_cons. apply NoDup_cons. split; [|done].
  intros (y & Hdate & [HPy [j Hj]%list_elem_of_lookup]%list_elem_of_filter)%list_elem_of_fmap.
  assert (0%nat = S j) as Hbad; [|done].
  eapply (Huniq 0%nat (S j) x y); [done|done| |done].
  rewrite (Huser x HPx), (Huser y HPy). done.
Qed.

(** Distinct dates within a window of [n] days are at most [n]. *)
Lemma window_length (records : list ConsistencyRecord) start_date n :
  0 ≤ n →
  NoDup (date <$> records) →
  (∀ r, r ∈ records → start_date ≤ date r < start_date + n) →
  Z.of_nat (length records) ≤ n.
Proof.
  intros Hn Hnodup Hrange.
  assert (date <$> records ⊆+ seqZ start_date n) as Hsub.
  { apply NoDup_submseteq; [done|].
    intros d (r & -> & Hr)%list_elem_of_fmap. apply elem_of_seqZ.
    specialize (Hrange r Hr). lia. }
  apply submseteq_length in Hsub. rewrite length_fmap, length_seqZ in Hsub. lia.
Qed.

Lemma count_where_le (p q : ConsistencyRecord → bool) records :
  (∀ r, p r = true → q r = true) →
  0 ≤ count_where p records ≤ count_where q records.
Proof.
  intros Hpq. unfold count_where. induction records as [|r records IH]; [done|].
  rewrite !filter_cons. specialize (Hpq r).
  repeat case_decide; cbn [length]; try lia.
  exfalso. auto.
Qed.

Lemma count_where_total p records :
  count_where p records ≤ Z.of_nat (length records).
Proof.
  unfold count_where. pose proof (length_filter (λ r, p r = true) records). lia.
Qed.




(** X4.  The cycle information is within bounds for every table and day:
    [cycle_day] is at most 30 and [days_remaining] lies between 0 and 30.
    Whenever [cycle_day] is positive the two add up to 30.  Without a
    latest record, or when it has no [cycle_start], [cycle_start] is
    reported empty with [cycle_day = 0] and 30 days remaining. *)
Theorem cycle_info_within_bounds (tbl : Table) (uid : Z) (today : Date)
    (rand : nat) :
  ∃ data,
    get_consistency_data tbl uid today rand = Some (Ok200 data) ∧
    let info := cycle_info data in
    cycle_day info ≤ 30 ∧
    0 ≤ days_remaining info ≤ 30 ∧
    (cycle_day info > 0 → cycle_day info + days_remaining info = 30) ∧
    (query_latest tbl uid ≫= cycle_start = None →
       info_cycle_start info = None ∧ cycle_day info = 0 ∧
       days_remaining info = 30).
Proof.
  destruct (get_consistency_data_value tbl uid today rand)
    as (n & message & _ & _ & stats & _ & Hdata).
  eexists. split; [exact Hdata|]. cbn [cycle_info]. unfold get_cycle_info.
  destruct (query_latest tbl uid) as [latest|]; simpl;
    [destruct (cycle_start latest) as [start|]; simpl|].
  - case_bool_decide; cbn [cycle_day days_remaining info_cycle_start];
      case_bool_decide; split_and!; try done; lia.
  - cbn. split_and!; done.
  - cbn. split_and!; done.
Qed.

(** ** The two streaks of [get_streak] *)











(** Without the invariant the bound fails: of two records for day 99 the
    walk sees the first, active one, while the scan also meets the second,
    inactive one, between the records of days 98 and 99 or after them. *)
Example current_streak_can_exceed_best_with_duplicates :
  let tbl := [mkRecord 1 7 97 true false 0 (Some 97);
              mkRecord 2 7 98 true false 0 (Some 97);
              mkRecord 3 7 98 false false 0 (Some 97);
              mkRecord 4 7 99 true false 0 (Some 97)] in
  calculate_streak tbl 7 100 = Some 3 ∧ best_streak tbl 7 = 2.
Proof. vm_compute. done. Qed.

(** ** Repeated and reordered updates *)

Lemma calculate_streak_ext tbl1 tbl2 uid today :
  (∀ d, d < today → day_active tbl1 uid d = day_active tbl2 uid d) →
  calculate_streak tbl1 uid today = calculate_streak tbl2 uid today.
Proof.
  intros Hsame.
  destruct (calculate_streak_ends tbl1 uid today) as (n & Hn & -> & Hrun & Hstop).
  symmetry. apply calculate_streak_run; [done|..].
  - intros i Hi. rewrite <- Hsame by lia. by apply Hrun.
  - rewrite <- Hsame by lia. done.
Qed.

(** The handler in closed form, from the record it gets or creates. *)
Lemma update_consistency_result tbl uid today rand target_date upload_type
    i r0 tbl0 :
  upload_type ∈ ["workout"; "diet"]%string →
  get_or_create_consistency_record tbl uid target_date = (i, r0, tbl0) →
  let r1 := if bool_decide (upload_type = "workout"%string)
            then set_workout_logged true r0 else set_diet_logged true r0 in
  ∃ streak message,
    calculate_streak (<[i := r1]> tbl0) uid today = Some streak ∧
    get_motivational_message rand streak 0 = Returns message ∧
    update_consistency tbl uid today rand target_date upload_type
    = Some (Ok200 (mkUpdateBody (title upload_type +:+ " logged successfully")
                     (set_streak_day streak r1)
                     (workout_logged r1 && diet_logged r1) message),
            <[i := set_streak_day streak r1]> tbl0).
Proof.
  intros Htype Hget r1. unfold update_consistency.
  rewrite (bool_decide_true (upload_type ∈ _)) by done. rewrite Hget.
  assert ((if bool_decide (upload_type = "workout"%string)
           then assign (set_workout_logged true) (i, r0, tbl0)
           else assign (set_diet_logged true) (i, r0, tbl0))
          = (i, r1, <[i := r1]> tbl0)) as ->.
  { unfold r1. by case_bool_decide. }
  destruct (calculate_streak_ends (<[i := r1]> tbl0) uid today)
    as (streak & _ & Hstreak & _).
  destruct (message_without_miss rand streak) as [message Hmsg].
  exists streak, message. split; [done|]. split; [done|].
  simpl. rewrite Hstreak. simpl. rewrite Hmsg. simpl.
  by rewrite list_insert_insert_eq.
Qed.

(** The record a handler left is the one the next handler gets. *)
Lemma get_or_create_after_assign tbl uid target_date i r0 tbl0 r' :
  get_or_create_consistency_record tbl uid target_date = (i, r0, tbl0) →
  user_id r' = user_id r0 → date r' = date r0 →
  get_or_create_consistency_record (<[i := r']> tbl0) uid target_date
  = (i, r', <[i := r']> tbl0).
Proof.
  intros [Hq _]%get_or_create_handle Hu Hd.
  pose proof Hq as (Hi & _ & _)%query_day_Some.
  unfold get_or_create_consistency_record.
  rewrite (query_day_insert uid target_date r' tbl0 i r0) by done.
  rewrite Hq. simpl. by rewrite decide_True.
Qed.

(** The streak a handler stores depends on the held record only through
    its being active. *)
Lemma streak_after_assign tbl uid today target_date i r0 tbl0 r r' :
  get_or_create_consistency_record tbl uid target_date = (i, r0, tbl0) →
  user_id r = user_id r0 → date r = date r0 →
  user_id r' = user_id r0 → date r' = date r0 →
  active r = active r' →
  calculate_streak (<[i := r]> tbl0) uid today
  = calculate_streak (<[i := r']> tbl0) uid today.
Proof.
  intros Hget Hu Hd Hu' Hd' Hactive. apply calculate_streak_ext. intros d _.
  rewrite !(day_active_after_assign tbl uid target_date i r0 tbl0) by done.
  by rewrite Hactive.
Qed.

(** X6.  Logging the same activity for the same day a second time changes
    nothing: the second update answers what the first answered and leaves
    the table the first one left. *)
Theorem update_twice_is_update_once (tbl : Table) (uid : Z) (today : Date)
    (rand : nat) (target_date : Date) (upload_type : string) :
  upload_type ∈ ["workout"; "diet"]%string →
  ∃ body tbl',
    update_consistency tbl uid today rand target_date upload_type
      = Some (Ok200 body, tbl') ∧
    update_consistency tbl' uid today rand target_date upload_type
      = Some (Ok200 body, tbl').
Proof.
  intros Htype.
  destruct (get_or_create_consistency_record tbl uid target_date)
    as [[i r0] tbl0] eqn:Hget.
  destruct (update_consistency_result tbl uid today rand target_date upload_type
              i r0 tbl0 Htype Hget) as (streak & message & Hstreak & Hmsg & Hupd).
  set (r1 := if bool_decide (upload_type = "workout"%string)
             then set_workout_logged true r0 else set_diet_logged true r0) in *.
  set (r2 := set_streak_day streak r1) in *.
  assert (user_id r2 = user_id r0 ∧ date r2 = date r0) as [Hu2 Hd2].
  { unfold r2, r1. by case_bool_decide. }
  eexists _, _. split; [exact Hupd|].
  pose proof (get_or_create_after_assign tbl uid target_date i r0 tbl0 r2
                Hget Hu2 Hd2) as Hget2.
  destruct (update_consistency_result (<[i := r2]> tbl0) uid today rand
              target_date upload_type i r2 (<[i := r2]> tbl0) Htype Hget2)
    as (streak' & message' & Hstreak' & Hmsg' & Hupd').
  assert ((if bool_decide (upload_type = "workout"%string)
           then set_workout_logged true r2 else set_diet_logged true r2) = r2)
    as Hsame.
  { unfold r2, r1. by case_bool_decide. }
  rewrite Hsame in *. rewrite list_insert_insert_eq in *.
  assert (streak' = streak) as ->.
  { rewrite (streak_after_assign tbl uid today target_date i r0 tbl0 r2 r1)
      in Hstreak'; [congruence|done..|].
    unfold r2. done. }
  assert (message' = message) as -> by congruence.
  rewrite Hupd'. unfold r2 at 2 3 4 5. unfold r2. done.
Qed.

Lemma update_twice_is_update_once_witness :
  ∃ body tbl',
    update_consistency [mkRecord 1 7 99 true false 0 (Some 99)] 7 100 0 100 "diet"
      = Some (Ok200 body, tbl') ∧
    update_consistency tbl' 7 100 0 100 "diet" = Some (Ok200 body, tbl').
Proof.
  apply (update_twice_is_update_once
           [mkRecord 1 7 99 true false 0 (Some 99)] 7 100 0 100 "diet").
  rewrite !elem_of_cons. auto.
Defined.

Lemma workout_or_diet (upload_type : string) :
  upload_type = "workout"%string ∨ upload_type = "diet"%string →
  upload_type ∈ ["workout"; "diet"]%string.
Proof. rewrite !elem_of_cons. tauto. Qed.

(** X7.  Logging the workout and the diet of a day gives the same record
    and the same table in either order, and the second answer reports
    [both_complete]. *)
Theorem both_activities_in_either_order (tbl : Table) (uid : Z) (today : Date)
    (rand : nat) (target_date : Date) :
  ∃ body_w tbl_w body_wd body_d tbl_d body_dw final,
    update_consistency tbl uid today rand target_date "workout"
      = Some (Ok200 body_w, tbl_w) ∧
    update_consistency tbl_w uid today rand target_date "diet"
      = Some (Ok200 body_wd, final) ∧
    update_consistency tbl uid today rand target_date "diet"
      = Some (Ok200 body_d, tbl_d) ∧
    update_consistency tbl_d uid today rand target_date "workout"
      = Some (Ok200 body_dw, final) ∧
    update_record body_wd = update_record body_dw ∧
    update_both_complete body_wd = true ∧
    update_both_complete body_dw = true.
Proof.
  destruct (get_or_create_consistency_record tbl uid target_date)
    as [[i r0] tbl0] eqn:Hget.
  destruct (update_consistency_result tbl uid today rand target_date "workout"
              i r0 tbl0 (workout_or_diet _ (or_introl eq_refl)) Hget)
    as (s_w & m_w & _ & _ & Hupd_w).
  destruct (update_consistency_result tbl uid today rand target_date "diet"
              i r0 tbl0 (workout_or_diet _ (or_intror eq_refl)) Hget)
    as (s_d & m_d & _ & _ & Hupd_d).
  cbn [bool_decide decide_rel] in Hupd_w, Hupd_d.
  rewrite bool_decide_true in Hupd_w by done.
  rewrite bool_decide_false in Hupd_d by done.
  set (r_w := set_streak_day s_w (set_workout_logged true r0)) in *.
  set (r_d := set_streak_day s_d (set_diet_logged true r0)) in *.
  pose proof (get_or_create_after_assign tbl uid target_date i r0 tbl0 r_w
                Hget eq_refl eq_refl) as Hget_w.
  pose proof (get_or_create_after_assign tbl uid target_date i r0 tbl0 r_d
                Hget eq_refl eq_refl) as Hget_d.
  destruct (update_consistency_result _ uid today rand target_date "diet"
              i r_w _ (workout_or_diet _ (or_intror eq_refl)) Hget_w)
    as (s_wd & m_wd & Hs_wd & Hm_wd & Hupd_wd).
  destruct (update_consistency_result _ uid today rand target_date "workout"
              i r_d _ (workout_or_diet _ (or_introl eq_refl)) Hget_d)
    as (s_dw & m_dw & Hs_dw & Hm_dw & Hupd_dw).
  rewrite bool_decide_false in Hs_wd, Hupd_wd by done.
  rewrite bool_decide_true in Hs_dw, Hupd_dw by done.
  rewrite list_insert_insert_eq in Hs_wd, Hs_dw, Hupd_wd, Hupd_dw.
  assert (s_dw = s_wd) as ->.
  { rewrite (streak_after_assign tbl uid today target_date i r0 tbl0
               (set_workout_logged true r_d) (set_diet_logged true r_w))
      in Hs_dw; [congruence|done..|].
    unfold active, r_w, r_d. done. }
  eexists _, _, _, _, _, _, _.
  split; [exact Hupd_w|]. split; [exact Hupd_wd|].
  split; [exact Hupd_d|]. split; [exact Hupd_dw|].
  done.
Qed.

(** ** Missed entries *)



(** ** The daily sweep on a database that raises nothing *)

Lemma bind_Done {A B : Type} (m : M A) (f : A → M B) w a w1 :
  m w = (Done a, w1) → (m ≫= f) w = f a w1.
Proof. unfold mbind, M_bind. by intros ->. Qed.







(** ** The weekly motivation by complete days *)

(** The completion rate of the week against the two thresholds, in days:
    the rate reaches 85 from 6 complete days on and 60 from 5 on. *)
Lemma weekly_rate_thresholds complete :
  0 ≤ complete ≤ 7 →
  let rate :=
    float_round1
      (float_mul_int (SFdiv prec emax (float_of_int complete) (float_of_int 7)) 100) in
  (SFleb (float_of_int 85) rate = true ↔ 6 ≤ complete) ∧
  (SFleb (float_of_int 60) rate = true ↔ 5 ≤ complete).
Proof.
  intros Hrange.
  assert (complete = 0 ∨ complete = 1 ∨ complete = 2 ∨ complete = 3 ∨
          complete = 4 ∨ complete = 5 ∨ complete = 6 ∨ complete = 7)
    as Hcases by lia.
  repeat destruct Hcases as [->|Hcases]; try subst complete; cbv zeta;
    match goal with
    | |- (?a = true ↔ _) ∧ (?b = true ↔ _) =>
        let va := eval vm_compute in a in
        let vb := eval vm_compute in b in
        replace a with va by (vm_compute; reflexivity);
        replace b with vb by (vm_compute; reflexivity)
    end;
    split; split; intros; (done || lia).
Qed.

Lemma weekly_messages_nonempty float_str user rate complete :
  weekly_messages float_str user rate complete ≠ [].
Proof. unfold weekly_messages. by repeat case_match. Qed.

(** X10.  When the range query succeeds on a table with at most one record
    per user and day, the weekly job finds between 0 and 7 complete days
    for the user and logs exactly the two lines of one motivation, whose
    message comes from the pool of the completion rate: the rate reaches
    the top threshold of 85 exactly from 6 complete days on, and the middle
    threshold of 60 exactly from 5 on. *)
Theorem weekly_motivation_by_complete_days (db_fault : nat → option Exception)
    (random : nat → nat) (float_str : spec_float → string) (user : User)
    (w : World) :
  db_fault (queries w) = None →
  one_record_per_day (db_records w) →
  let complete :=
    count_where (λ r, workout_logged r && diet_logged r)
      (query_range (db_records w) (u_id user) (clock w - 6) (clock w)) in
  let rate :=
    float_round1
      (float_mul_int (SFdiv prec emax (float_of_int complete) (float_of_int 7)) 100) in
  0 ≤ complete ≤ 7 ∧
  (SFleb (float_of_int 85) rate = true ↔ 6 ≤ complete) ∧
  (SFleb (float_of_int 60) rate = true ↔ 5 ≤ complete) ∧
  ∃ message,
    message ∈ weekly_messages float_str user rate complete ∧
    weekly_body db_fault random float_str user w
    = (Done tt,
       mkWorld (db_users w) (db_records w) (clock w)
         (log w ++ notification_lines "WEEKLY MOTIVATION" user message)
         (S (queries w)) (S (draws w))).
Proof.
  intros Hquery Huniq complete rate.
  set (records := query_range (db_records w) (u_id user) (clock w - 6) (clock w))
    in *.
  assert (0 ≤ complete ≤ 7) as Hrange.
  { pose proof (count_where_le (λ r, workout_logged r && diet_logged r)
                  (λ _, true) records (λ _ _, eq_refl)) as [H0 _].
    pose proof (count_where_total (λ r, workout_logged r && diet_logged r) records).
    assert (Z.of_nat (length records) ≤ 7); [|unfold complete; lia].
    apply (window_length records (clock w - 6)); [lia| |].
    - apply (selected_dates_NoDup _ (u_id user)); [|done]. by intros r [? _].
    - intros r [(_ & ? & ?) _]%list_elem_of_filter. lia. }
  destruct (weekly_rate_thresholds complete Hrange) as [Htop Hmiddle].
  split; [done|]. split; [done|]. split; [done|].
  destruct (random_choice_elem (random (draws w))
              (weekly_messages float_str user rate complete))
    as (message & Hchoice & Hin); [apply weekly_messages_nonempty|].
  exists message. split; [done|].
  unfold weekly_body.
  rewrite (bind_Done date_today _ w (clock w) w eq_refl). cbv beta zeta.
  erewrite (bind_Done (db_query db_fault _));
    [|unfold db_query; rewrite Hquery; reflexivity].
  fold records. fold complete.
  erewrite (bind_Done (lift_result _)); [|unfold truediv; reflexivity].
  fold rate.
  erewrite (bind_Done (choose random _));
    [|unfold choose; cbn [draws]; rewrite Hchoice; reflexivity].
  unfold notification_lines, _store_notification, try_except, logger_info,
    write_log, mbind, M_bind. cbn [log db_users db_records clock queries draws].
  by rewrite <- app_assoc.
Qed.

Lemma weekly_motivation_by_complete_days_witness :
  ∃ message,
    weekly_body (λ _, None) (λ _, 0%nat) (λ _, "0.0"%string)
      (mkUser 1 "alice" "alice@example.org" true) example_world
    = (Done tt,
       mkWorld (db_users example_world) (db_records example_world) 100
         (notification_lines "WEEKLY MOTIVATION"
            (mkUser 1 "alice" "alice@example.org" true) message)
         1 1).
Proof.
  destruct (weekly_motivation_by_complete_days (λ _, None) (λ _, 0%nat)
              (λ _, "0.0"%string) (mkUser 1 "alice" "alice@example.org" true)
              example_world eq_refl)
    as (_ & _ & _ & message & _ & Hrun).
  { intros [|[|i]] [|[|j]] r1 r2; simpl; intros [= <-] [= <-]; done. }
  exists message. exact Hrun.
Defined.

(** ** Achievement notifications *)

(** X11.  [send_achievement_notification] never raises.  When the lookup
    of the user fails it logs that error and nothing else; when there is no
    user with the id it logs nothing; otherwise it logs the two lines of
    one notification, with the message of the achievement type, or the
    generic message when the type is none of the eight known ones. *)
Theorem achievement_notification_is_safe (db_fault : nat → option Exception)
    (uid : Z) (achievement_type : string) (w : World) :
  let after := (send_achievement_notification db_fault uid achievement_type w).2 in
  (send_achievement_notification db_fault uid achievement_type w).1 = Done tt ∧
  same_tables w after ∧
  (∀ e, db_fault (queries w) = Some e →
     log after = log w ++ [ERROR ("Error sending achievement notification: "
                                  +:+ exception_str e)]) ∧
  (db_fault (queries w) = None →
     (∀ user, user ∈ db_users w → u_id user ≠ uid) →
     log after = log w) ∧
  (db_fault (queries w) = None →
     ∀ i user, list_find (λ u, u_id u = uid) (db_users w) = Some (i, user) →
       ∃ message,
         log after
           = log w ++ notification_lines "ACHIEVEMENT NOTIFICATION" user message ∧
         (∀ text, achievement_messages user !! achievement_type = Some text →
                  message = text) ∧
         (achievement_type ∉ ["first_upload"; "streak_7"; "streak_14";
                              "streak_21"; "streak_30"; "cycle_complete";
                              "perfect_week"; "comeback"]%string →
          message = ("Great achievement, " +:+ username user +:+ "!")%string)).
Proof.
  unfold send_achievement_notification, query_user, try_except, mbind, M_bind,
    db_query.
  destruct (db_fault (queries w)) as [e|] eqn:Hfault.
  { cbn. split_and!; try done. by intros e' [= ->]. }
  destruct (list_find (λ u, u_id u = uid) (db_users w)) as [[i user]|] eqn:Hfind.
  - cbn -[achievement_messages]. split_and!; try done.
    + intros _ Hnone. exfalso.
      apply list_find_Some in Hfind as (Hi & Hid & _).
      apply (Hnone user); [by eapply list_elem_of_lookup_2|done].
    + intros _ i' user' [= <- <-].
      apply list_find_Some in Hfind as (_ & Hid & _).
      exists (default ("Great achievement, " +:+ username user +:+ "!")%string
                (achievement_messages user !! achievement_type)).
      split; [|split].
      * unfold notification_lines. rewrite <- app_assoc, Hid. reflexivity.
      * by intros text ->.
      * intros Hunknown. unfold achievement_messages.
        by rewrite (not_elem_of_list_to_map_1 (M := gmap string)).
  - cbn. split_and!; done.
Qed.

(** ** The life cycle of the service *)

Lemma call_keeps_jobs c s w :
  jobs s = (if running s then standard_jobs else []) →
  ∃ s' w',
    call c s w = (Done s', w') ∧
    jobs s' = (if running s' then standard_jobs else []) ∧
    running s' = (if c is CallStart then true else false) ∧
    (threads_started s ≤ threads_started s'
       ≤ threads_started s + (if c is CallStart then 1 else 0))%nat.
Proof.
  intros Hjobs. destruct c; simpl.
  - unfold start. destruct (running s) eqn:Hrunning.
    + eexists _, _. split; [reflexivity|]. rewrite Hrunning. split_and!; (done || lia).
    + eexists _, _. split; [reflexivity|]. simpl. rewrite Hjobs.
      split_and!; (done || lia).
  - eexists _, _. split; [reflexivity|]. simpl. split_and!; (done || lia).
Qed.

(** X12.  However [start] and [stop] are called on a new service, each
    call ends normally and the scheduler holds the daily and the weekly job
    exactly once each while the service is running and no job while it is
    stopped; a repeated [start] schedules nothing twice.  The service is
    running exactly when the last call was [start], and it has started at
    most one thread per call of [start]. *)
Theorem scheduler_holds_each_job_once (calls : list ServiceCall) (w : World) :
  ∃ s w',
    run_calls calls initial_service w = (Done s, w') ∧
    jobs s = (if running s then standard_jobs else []) ∧
    running s = (if last calls is Some CallStart then true else false) ∧
    (threads_started s ≤ length (filter (λ c, c = CallStart) calls))%nat.
Proof.
  assert (∀ calls s0 w0,
            jobs s0 = (if running s0 then standard_jobs else []) →
            ∃ s w',
              run_calls calls s0 w0 = (Done s, w') ∧
              jobs s = (if running s then standard_jobs else []) ∧
              running s = match last calls with
                          | Some CallStart => true
                          | Some CallStop => false
                          | None => running s0
                          end ∧
              (threads_started s
                 ≤ threads_started s0
                   + length (filter (λ c, c = CallStart) calls))%nat) as Hgen.
  { clear. induction calls as [|c calls IH]; intros s0 w0 Hjobs.
    - exists s0, w0. simpl. split_and!; (done || lia).
    - destruct (call_keeps_jobs c s0 w0 Hjobs)
        as (s1 & w1 & Hcall & Hjobs1 & Hrunning1 & Hthreads1).
      destruct (IH s1 w1 Hjobs1) as (s & w' & Hrun & Hjobs' & Hrunning & Hthreads).
      exists s, w'. cbn [run_calls]. rewrite (bind_Done _ _ _ _ _ Hcall).
      split; [done|]. split; [done|]. split.
      + rewrite Hrunning. destruct calls as [|c' calls]; simpl.
        * rewrite Hrunning1. by destruct c.
        * destruct (last (c' :: calls)) as [[]|] eqn:Hlast; [done..|].
          by apply last_None in Hlast.
      + rewrite filter_cons. destruct c; simpl in *;
          repeat case_decide; simpl; try done; lia. }
  destruct (Hgen calls initial_service w eq_refl)
    as (s & w' & Hrun & Hjobs & Hrunning & Hthreads).
  exists s, w'. split_and!; done.
Qed.

(** ** Uploads *)

Lemma rsplit1_none c s : contains c s = false → rsplit1 c s = [s].
Proof.
  induction s as [|c' s IH]; simpl; [done|].
  destruct (decide (c' = c)); [done|]. intros Hs. by rewrite (IH Hs).
Qed.

Lemma rsplit1_app c before after :
  contains c after = false →
  rsplit1 c (before +:+ String c after) = [before; after].
Proof.
  intros Hafter. induction before as [|c' before IH]; simpl.
  - rewrite (rsplit1_none _ _ Hafter). by rewrite decide_True.
  - by rewrite IH.
Qed.

Lemma contains_split c s :
  contains c s = true →
  ∃ before after, s = before +:+ String c after ∧ contains c after = false.
Proof.
  induction s as [|c' s IH]; simpl; [done|].
  destruct (contains c s) eqn:Hs.
  - intros _. destruct (IH eq_refl) as (before & after & -> & Hafter).
    by exists (String c' before), after.
  - destruct (decide (c' = c)) as [->|]; [|done].
    intros _. by exists EmptyString, s.
Qed.

Lemma contains_app c before after : contains c (before +:+ String c after) = true.
Proof.
  induction before as [|c' before IH]; simpl.
  - by rewrite decide_True.
  - rewrite IH. by destruct (decide _).
Qed.

Lemma allowed_file_value name :
  allowed_file name
  = Returns (match rsplit1 dot name with
             | [_; extension] => bool_decide (lower extension ∈ ALLOWED_EXTENSIONS)
             | _ => false
             end).
Proof.
  unfold allowed_file. destruct (contains dot name) eqn:Hdot.
  - destruct (contains_split _ _ Hdot) as (before & after & -> & Hafter).
    by rewrite (rsplit1_app _ _ _ Hafter).
  - by rewrite (rsplit1_none _ _ Hdot).
Qed.

(** X13.  [allowed_file]: the check never raises, and it accepts a name
    exactly when the name has a dot and what follows its last dot is, in
    lower case, one of png, jpg, jpeg, gif and webp.  Only the last
    extension counts, and nothing is asked of what stands before it. *)
Theorem allowed_file_checks_last_extension (name : string) :
  ∃ answer : bool,
    allowed_file name = Returns answer ∧
    (answer = true ↔
     ∃ stem extension,
       name = stem +:+ String dot extension ∧
       contains dot extension = false ∧
       lower extension ∈ ALLOWED_EXTENSIONS).
Proof.
  eexists. split; [apply allowed_file_value|].
  destruct (contains dot name) eqn:Hdot.
  - destruct (contains_split _ _ Hdot) as (before & after & -> & Hafter).
    rewrite (rsplit1_app _ _ _ Hafter). rewrite bool_decide_eq_true. split.
    + intros Hin. by exists before, after.
    + intros (stem & extension & Hname & Hextension & Hin).
      pose proof (rsplit1_app _ stem _ Hextension) as Hsplit.
      rewrite <- Hname, (rsplit1_app _ _ _ Hafter) in Hsplit.
      by injection Hsplit as _ ->.
  - rewrite (rsplit1_none _ _ Hdot). split; [done|].
    intros (stem & extension & -> & _). by rewrite contains_app in Hdot.
Qed.

Example allowed_file_examples :
  allowed_file "photo.PNG" = Returns true ∧
  allowed_file "archive.png.exe" = Returns false ∧
  allowed_file "shell.php.jpg" = Returns true ∧
  allowed_file ".webp" = Returns true ∧
  allowed_file "png" = Returns false ∧
  allowed_file "photo." = Returns false.
Proof. by vm_compute. Qed.




Lemma allowed_file_true name :
  allowed_file name = Returns true →
  ∃ stem extension,
    rsplit1 dot name = [stem; extension] ∧
    lower extension ∈ ALLOWED_EXTENSIONS.
Proof.
  rewrite allowed_file_value. intros Hallowed.
  destruct (rsplit1 dot name) as [|stem [|extension [|? ?]]]; try done.
  exists stem, extension. split; [done|].
  injection Hallowed as Hallowed. by apply bool_decide_eq_true in Hallowed.
Qed.

Lemma next_upload_id_fresh table u : u ∈ table → up_id u < next_upload_id table.
Proof.
  unfold next_upload_id. induction table as [|u' table IH]; intros Hin.
  - by apply elem_of_nil in Hin.
  - apply elem_of_cons in Hin as [->|Hin]; cbn [fmap list_fmap foldr]; [lia|].
    specialize (IH Hin). cbn [fmap] in IH. lia.
Qed.

Section UploadRoutes.

Context {FS Drive : Type}.
Variable makedirs : string → FS → FS * option Exception.
Variable write_file : string → string → FS → FS * option Exception.
Variable drive_upload_file :
  DriveUpload → FS → Drive → Drive * result (option DriveFile).
Variable secure_filename : string → string.
Variable path_join : string → string → string.
Variable commit_fault : list Upload → option Exception.
Variable UPLOAD_FOLDER : string.

(** A request that fails a check is answered 400 and nothing is touched. *)
Lemma upload_image_rejected current_user request uuid_hex now insert_time
    (site : Site FS Drive) :
  ¬ acceptable request →
  ∃ error,
    upload_image makedirs write_file drive_upload_file secure_filename path_join
      commit_fault UPLOAD_FOLDER current_user request uuid_hex now insert_time
      site
    = (Reply400 error, site).
Proof.
  intros Hno. unfold upload_image, guarded, upload_image_body.
  destruct (request_file request) as [file|] eqn:Hfile; simpl; [|by eexists].
  case_bool_decide as Hname; simpl; [by eexists|].
  unfold mbind, H_bind, lift_pure at 1.
  destruct (allowed_file (storage_filename file)) as [[]|e] eqn:Hallowed;
    simpl; [|by eexists|by rewrite allowed_file_value in Hallowed].
  case_bool_decide as Htype; simpl; [by eexists|].
  case_bool_decide as Hsize; simpl; [by eexists|].
  destruct Hno. exists file. split_and!; done.
Qed.

(** What [upload_image] does with a request that passes the checks. *)
Lemma upload_image_accepted current_user request uuid_hex now insert_time
    (site : Site FS Drive) :
  acceptable request →
  ∃ file stem extension,
    request_file request = Some file ∧
    rsplit1 dot (storage_filename file) = [stem; extension] ∧
    lower extension ∈ ALLOWED_EXTENSIONS ∧
    let upload_type := default "workout"%string (request_type request) in
    let unique_filename :=
      (uuid_hex +:+ "_" +:+ secure_filename stem +:+ "." +:+ lower extension)%string in
    let directory := path_join UPLOAD_FOLDER (pretty (u_id current_user)) in
    let path := path_join directory unique_filename in
    upload_image makedirs write_file drive_upload_file secure_filename path_join
      commit_fault UPLOAD_FOLDER current_user request uuid_hex now insert_time
      site
    = let '(disk1, raised1) := makedirs directory (disk site) in
      match raised1 with
      | Some e =>
          (Reply500 ("Upload failed: " +:+ exception_str e),
           mkSite (uploads site) disk1 (drive site))
      | None =>
          let '(disk2, raised2) := write_file path (storage_data file) disk1 in
          match raised2 with
          | Some e =>
              (Reply500 ("Upload failed: " +:+ exception_str e),
               mkSite (uploads site) disk2 (drive site))
          | None =>
              let '(drive', outcome) :=
                drive_upload_file
                  (mkDriveUpload path (email current_user) upload_type
                     (storage_filename file) now
                     (Z.of_nat (String.length (storage_data file))))
                  disk2 (drive site) in
              let drive_result :=
                match outcome with Returns r => r | Raises _ => None end in
              let row :=
                mkUpload (next_upload_id (uploads site)) (u_id current_user)
                  unique_filename (storage_filename file) path upload_type
                  insert_time now (drive_file_id <$> drive_result) in
              match commit_fault (uploads site ++ [row]) with
              | Some e =>
                  (Reply500 ("Upload failed: " +:+ exception_str e),
                   mkSite (uploads site) disk2 drive')
              | None =>
                  (Reply201
                     (mkUploadBody "File uploaded successfully" row now
                        (match drive_result with
                         | Some drive_file =>
                             DriveUploaded (drive_file_id drive_file)
                               (web_view_link drive_file)
                         | None =>
                             DriveNotUploaded
                               "File saved locally but Google Drive sync failed"
                         end)),
                   mkSite (uploads site ++ [row]) disk2 drive')
              end
          end
      end.
Proof.
  intros (file & Hfile & Hname & Hallowed & Htype & Hsize).
  destruct (allowed_file_true _ Hallowed) as (stem & extension & Hsplit & Hext).
  exists file, stem, extension. split_and!; [done..|].
  unfold upload_image, guarded, upload_image_body. rewrite Hfile.
  rewrite bool_decide_false by done.
  unfold mbind, H_bind, lift_pure at 1. rewrite Hallowed. simpl.
  rewrite (bool_decide_false (_ ∉ _)) by (by intros Hnot).
  rewrite (bool_decide_false (_ > _)) by lia.
  rewrite Hsplit. unfold lift_pure, index, on_disk, try_drive_upload,
    add_and_commit. simpl.
  destruct (makedirs _ _) as [disk1 [e1|]]; simpl; [done|].
  destruct (write_file _ _ _) as [disk2 [e2|]]; simpl; [done|].
  destruct (drive_upload_file _ _ _) as [drive' outcome]; simpl.
  destruct (commit_fault _) as [e|]; simpl; done.
Qed.

Variable path_exists : string → FS → result bool.
Variable remove_file : string → FS → FS * option Exception.
Variable drive_delete_file : string → Drive → Drive * result bool.

Lemma delete_upload_missing current_user upload_id (site : Site FS Drive) :
  list_find (targeted current_user upload_id) (uploads site) = None →
  delete_upload path_exists remove_file drive_delete_file commit_fault
    current_user upload_id site
  = (Reply404 "Upload not found", site).
Proof.
  intros Hfind. unfold delete_upload, guarded, mbind, H_bind.
  change (list_find (λ u, up_id u = upload_id ∧ up_user_id u = current_user)
            (uploads site))
    with (list_find (targeted current_user upload_id) (uploads site)).
  by rewrite Hfind.
Qed.

(** Whatever Drive and the disk do, the row found is deleted when the commit
    returns and kept when it raises. *)
Lemma delete_upload_found current_user upload_id (site : Site FS Drive) i upload :
  list_find (targeted current_user upload_id) (uploads site) = Some (i, upload) →
  ∃ disk' drive',
    delete_upload path_exists remove_file drive_delete_file commit_fault
      current_user upload_id site
    = match commit_fault (delete i (uploads site)) with
      | Some e =>
          (Reply500 ("Failed to delete upload: " +:+ exception_str e),
           mkSite (uploads site) disk' drive')
      | None =>
          (Reply200 "Upload deleted successfully",
           mkSite (delete i (uploads site)) disk' drive')
      end.
Proof.
  intros Hfind. unfold delete_upload, guarded, mbind, H_bind.
  change (list_find (λ u, up_id u = upload_id ∧ up_user_id u = current_user)
            (uploads site))
    with (list_find (targeted current_user upload_id) (uploads site)).
  rewrite Hfind.
  assert (∃ drive',
            (match google_drive_id upload with
             | Some file_id =>
                 if bool_decide (file_id = EmptyString) then mret ()
                 else try_drive_delete FS Drive drive_delete_file file_id
             | None => mret ()
             end) site
            = (Returns (), mkSite (uploads site) (disk site) drive'))
    as [drive' ->].
  { destruct (google_drive_id upload) as [file_id|];
      [case_bool_decide|]; try (exists (drive site); by destruct site).
    unfold try_drive_delete.
    destruct (drive_delete_file file_id (drive site)) as [drive' ?].
    by exists drive'. }
  assert (∃ disk',
            try_remove FS Drive path_exists remove_file (file_path upload)
              (mkSite (uploads site) (disk site) drive')
            = (Returns (), mkSite (uploads site) disk' drive'))
    as [disk' ->].
  { unfold try_remove. simpl.
    destruct (path_exists _ _) as [[]|]; try by exists (disk site).
    destruct (remove_file _ _) as [disk' ?]. by exists disk'. }
  exists disk', drive'. unfold delete_and_commit. simpl.
  by destruct (commit_fault _).
Qed.

End UploadRoutes.

Lemma rsplit1_two c s before after :
  rsplit1 c s = [before; after] →
  s = before +:+ String c after ∧ contains c after = false.
Proof.
  intros Hsplit. destruct (contains c s) eqn:Hc.
  - destruct (contains_split _ _ Hc) as (b & a & -> & Ha).
    rewrite (rsplit1_app _ _ _ Ha) in Hsplit. by injection Hsplit as -> ->.
  - by rewrite (rsplit1_none _ _ Hc) in Hsplit.
Qed.

Lemma acceptable_or_not request : acceptable request ∨ ¬ acceptable request.
Proof.
  destruct (request_file request) as [file|] eqn:Hfile.
  2:{ right. intros (file & ? & _). congruence. }
  destruct (decide (storage_filename file = EmptyString)) as [Hname|Hname].
  { right. intros (file' & ? & ? & _). congruence. }
  destruct (allowed_file (storage_filename file)) as [[]|e] eqn:Hallowed.
  2,3: right; intros (file' & ? & ? & ? & _); congruence.
  destruct (decide (default "workout"%string (request_type request)
                    ∈ ["workout"; "diet"]%string)) as [Htype|Htype].
  2:{ right. intros (file' & ? & ? & ? & ? & _). congruence. }
  destruct (decide (Z.of_nat (String.length (storage_data file)) ≤ MAX_FILE_SIZE))
    as [Hsize|Hsize].
  - left. exists file. split_and!; done.
  - right. intros (file' & ? & ? & ? & ? & ?).
    assert (file' = file) as -> by congruence. done.
Qed.

(** X15.  [upload_image]: an upload is refused with nothing touched, or
    recorded as one new row, or fails with the table as it was.  The answer
    is 400 exactly when the request fails a check (no file, no file name, a
    name that [allowed_file] refuses, a type other than workout and diet, or
    more than 16 MiB), and then neither the table nor the disk nor Drive has
    changed.  A 201 appends one row to the table: it belongs to the caller,
    its type is workout or diet, its id is above every id of the table, it
    keeps the name the client sent, and the stored name is the UUID, the
    secured stem and the lower-cased extension, which is an allowed one.  A
    500 leaves the table unchanged. *)
Theorem upload_is_refused_or_recorded {FS Drive : Type}
    (makedirs : string → FS → FS * option Exception)
    (write_file : string → string → FS → FS * option Exception)
    (drive_upload_file :
       DriveUpload → FS → Drive → Drive * result (option DriveFile))
    (secure_filename : string → string) (path_join : string → string → string)
    (commit_fault : list Upload → option Exception) (UPLOAD_FOLDER : string)
    (current_user : User) (request : UploadRequest) (uuid_hex : string)
    (now insert_time : Z) (site : Site FS Drive) :
  ∃ reply site',
    upload_image makedirs write_file drive_upload_file secure_filename path_join
      commit_fault UPLOAD_FOLDER current_user request uuid_hex now insert_time
      site
    = (reply, site') ∧
    match reply with
    | Reply400 _ => ¬ acceptable request ∧ site' = site
    | Reply500 _ => acceptable request ∧ uploads site' = uploads site
    | Reply201 body =>
        let row := upload_body_upload body in
        acceptable request ∧
        uploads site' = uploads site ++ [row] ∧
        up_user_id row = u_id current_user ∧
        up_type row ∈ ["workout"; "diet"]%string ∧
        (∀ u, u ∈ uploads site → up_id u < up_id row) ∧
        upload_date row = insert_time ∧
        ai_timestamp row = now ∧
        (∃ file,
           request_file request = Some file ∧
           original_filename row = storage_filename file) ∧
        ∃ stem extension,
          original_filename row = stem +:+ String dot extension ∧
          contains dot extension = false ∧
          lower extension ∈ ALLOWED_EXTENSIONS ∧
          filename row
          = (uuid_hex +:+ "_" +:+ secure_filename stem +:+ "."
             +:+ lower extension)%string
    | _ => False
    end.
Proof.
  destruct (acceptable_or_not request) as [Hyes|Hno].
  2:{ destruct (upload_image_rejected makedirs write_file drive_upload_file
                  secure_filename path_join commit_fault UPLOAD_FOLDER
                  current_user request uuid_hex now insert_time site Hno)
        as [error ->].
      by exists (Reply400 error), site. }
  destruct (upload_image_accepted makedirs write_file drive_upload_file
              secure_filename path_join commit_fault UPLOAD_FOLDER
              current_user request uuid_hex now insert_time site Hyes)
    as (file & stem & extension & Hfile & Hsplit & Hext & ->).
  pose proof Hyes as (file' & Hfile' & _ & _ & Htype & _).
  destruct (makedirs _ _) as [disk1 [e1|]]; [by eexists _, _|].
  destruct (write_file _ _ _) as [disk2 [e2|]]; [by eexists _, _|].
  destruct (drive_upload_file _ _ _) as [drive' outcome]. cbv zeta.
  destruct (commit_fault _) as [e|]; [by eexists _, _|].
  eexists _, _. split; [done|]. simpl. split_and!; try done.
  - intros u Hin. by apply next_upload_id_fresh.
  - by exists file.
  - destruct (rsplit1_two _ _ _ _ Hsplit) as [Hname Hlast].
    by exists stem, extension.
Qed.

(** X16.  [upload_image]: Google Drive cannot fail an upload.  When the
    request passes the checks and the file system and the commit raise
    nothing, the answer is 201 and the row is in the table, whatever the
    Drive call does.  The row has a [google_drive_id] exactly when the answer
    reports the Drive upload; and when Drive gives no file (it raises, or
    returns [None]), the row has none and the answer says that the file was
    saved locally. *)
Theorem upload_succeeds_without_drive {FS Drive : Type}
    (makedirs : string → FS → FS * option Exception)
    (write_file : string → string → FS → FS * option Exception)
    (drive_upload_file :
       DriveUpload → FS → Drive → Drive * result (option DriveFile))
    (secure_filename : string → string) (path_join : string → string → string)
    (commit_fault : list Upload → option Exception) (UPLOAD_FOLDER : string)
    (current_user : User) (request : UploadRequest) (uuid_hex : string)
    (now insert_time : Z) (site : Site FS Drive) :
  acceptable request →
  (∀ path fs, (makedirs path fs).2 = None) →
  (∀ path data fs, (write_file path data fs).2 = None) →
  (∀ table, commit_fault table = None) →
  ∃ body site',
    upload_image makedirs write_file drive_upload_file secure_filename path_join
      commit_fault UPLOAD_FOLDER current_user request uuid_hex now insert_time
      site
    = (Reply201 body, site') ∧
    uploads site' = uploads site ++ [upload_body_upload body] ∧
    match upload_body_drive body with
    | DriveUploaded file_id _ =>
        google_drive_id (upload_body_upload body) = Some file_id
    | DriveNotUploaded _ => google_drive_id (upload_body_upload body) = None
    end ∧
    ((∀ r fs d drive_file,
        (drive_upload_file r fs d).2 ≠ Returns (Some drive_file)) →
     google_drive_id (upload_body_upload body) = None ∧
     upload_body_drive body
     = DriveNotUploaded "File saved locally but Google Drive sync failed").
Proof.
  intros Hyes Hmakedirs Hwrite Hcommit.
  destruct (upload_image_accepted makedirs write_file drive_upload_file
              secure_filename path_join commit_fault UPLOAD_FOLDER
              current_user request uuid_hex now insert_time site Hyes)
    as (file & stem & extension & Hfile & Hsplit & Hext & ->).
  match goal with
  | |- context [makedirs ?p ?fs] =>
      pose proof (Hmakedirs p fs) as H1; destruct (makedirs p fs) as [disk1 raised1]
  end.
  simpl in H1. subst raised1.
  match goal with
  | |- context [write_file ?p ?d ?fs] =>
      pose proof (Hwrite p d fs) as H2;
      destruct (write_file p d fs) as [disk2 raised2]
  end.
  simpl in H2. subst raised2.
  match goal with
  | |- context [drive_upload_file ?r ?fs ?d] =>
      destruct (drive_upload_file r fs d) as [drive' outcome] eqn:Hdrive
  end.
  cbv zeta. rewrite Hcommit. eexists _, _. split; [done|]. simpl. split; [done|]. split.
  - by destruct outcome as [[drive_file|]|e].
  - intros Hno. destruct outcome as [[drive_file|]|e]; try done.
    match type of Hdrive with
    | drive_upload_file ?r ?fs ?d = _ => specialize (Hno r fs d drive_file)
    end.
    by rewrite Hdrive in Hno.
Qed.

Lemma upload_succeeds_without_drive_witness :
  ∃ body site',
    upload_image example_makedirs example_write_file example_drive_upload
      example_secure_filename example_path_join example_commit "uploads"
      example_user example_request "c0ffee" 2000 2001 example_site
    = (Reply201 body, site') ∧
    uploads site' = uploads example_site ++ [upload_body_upload body] ∧
    google_drive_id (upload_body_upload body) = None.
Proof.
  destruct (upload_succeeds_without_drive example_makedirs example_write_file
              example_drive_upload example_secure_filename example_path_join
              example_commit "uploads" example_user example_request "c0ffee"
              2000 2001 example_site)
    as (body & site' & Hrun & Hrows & _ & Hdrive); try done.
  { eexists. split_and!; [reflexivity|done|by vm_compute| |by vm_compute].
    simpl. rewrite !elem_of_cons. auto. }
  exists body, site'. split; [exact Hrun|]. split; [exact Hrows|].
  apply Hdrive. intros r fs d drive_file. done.
Defined.

Lemma elem_of_delete_other {A : Type} (l : list A) i x target :
  l !! i = Some target → x ∈ l → x ≠ target → x ∈ delete i l.
Proof.
  revert i. induction l as [|y l IH]; intros [|i] Hi Hin Hne; simpl in *;
    try done.
  - injection Hi as ->. apply elem_of_cons in Hin as [?|?]; done.
  - apply elem_of_cons in Hin as [->|Hin]; [left|right]. by eapply IH.
Qed.

Lemma elem_of_delete_original {A : Type} (l : list A) i x :
  x ∈ delete i l → x ∈ l.
Proof.
  revert i. induction l as [|y l IH]; intros [|i] Hin; simpl in *; try done.
  - by right.
  - apply elem_of_cons in Hin as [->|Hin]; [left|right]. by eapply IH.
Qed.

(** X17.  [delete_upload]: a user deletes only an upload of their own.  The
    rows that are not the upload with this id of this user stay in the
    table, and no row is added.  Without such an upload the answer is 404
    and nothing at all changes, so the id of somebody else's upload deletes
    nothing.  With one, the answer is 200 and the row is gone when the
    commit returns, whatever Drive and the file system did with the file;
    and 500 with the table unchanged when the commit raises. *)
Theorem delete_touches_only_own_upload {FS Drive : Type}
    (path_exists : string → FS → result bool)
    (remove_file : string → FS → FS * option Exception)
    (drive_delete_file : string → Drive → Drive * result bool)
    (commit_fault : list Upload → option Exception)
    (current_user upload_id : Z) (site : Site FS Drive) :
  ∃ reply site',
    delete_upload path_exists remove_file drive_delete_file commit_fault
      current_user upload_id site
    = (reply, site') ∧
    (∀ u, u ∈ uploads site → ¬ targeted current_user upload_id u →
          u ∈ uploads site') ∧
    (∀ u, u ∈ uploads site' → u ∈ uploads site) ∧
    match reply with
    | Reply404 _ =>
        site' = site ∧
        ∀ u, u ∈ uploads site → ¬ targeted current_user upload_id u
    | Reply200 _ =>
        ∃ i u,
          uploads site !! i = Some u ∧ targeted current_user upload_id u ∧
          commit_fault (delete i (uploads site)) = None ∧
          uploads site' = delete i (uploads site)
    | Reply500 _ =>
        uploads site' = uploads site ∧
        ∃ i u,
          uploads site !! i = Some u ∧ targeted current_user upload_id u ∧
          commit_fault (delete i (uploads site)) ≠ None
    | _ => False
    end.
Proof.
  destruct (list_find (targeted current_user upload_id) (uploads site))
    as [[i upload]|] eqn:Hfind.
  - destruct (delete_upload_found commit_fault path_exists remove_file
                drive_delete_file current_user upload_id site i upload Hfind)
      as (disk' & drive' & ->).
    apply list_find_Some in Hfind as (Hi & Htarget & _).
    destruct (commit_fault (delete i (uploads site))) as [e|] eqn:Hcommit.
    + eexists _, _. split; [done|]. simpl. split_and!; try done.
      exists i, upload. split_and!; try done. by rewrite Hcommit.
    + eexists _, _. split; [done|]. simpl. split_and!.
      * intros u Hin Hno. eapply elem_of_delete_other; [done..|].
        by intros ->.
      * intros u. apply elem_of_delete_original.
      * by exists i, upload.
  - rewrite (delete_upload_missing commit_fault path_exists remove_file
               drive_delete_file current_user upload_id site Hfind).
    eexists _, _. split; [done|].
    apply list_find_None in Hfind. rewrite Forall_forall in Hfind.
    split_and!; try done.
Qed.

Lemma count_uploads_snoc (P : Upload → Prop) `{∀ u, Decision (P u)} table row :
  count_uploads P (table ++ [row])
  = count_uploads P table + (if decide (P row) then 1 else 0).
Proof.
  unfold count_uploads. rewrite filter_app, length_app, filter_cons, filter_nil.
  destruct (decide (P row)); cbn [length]; lia.
Qed.

(** X18.  [upload_image] and [get_upload_stats]: a recorded upload counts
    once.  After a 201 the statistics of the caller show one upload more in
    total, one more among the workout and diet uploads together, and one
    more among the synced uploads exactly when the row has a
    [google_drive_id]; the statistics of every other user are what they
    were. *)
Theorem recorded_upload_counts_once {FS Drive : Type}
    (makedirs : string → FS → FS * option Exception)
    (write_file : string → string → FS → FS * option Exception)
    (drive_upload_file :
       DriveUpload → FS → Drive → Drive * result (option DriveFile))
    (secure_filename : string → string) (path_join : string → string → string)
    (commit_fault : list Upload → option Exception) (UPLOAD_FOLDER : string)
    (current_user : User) (request : UploadRequest) (uuid_hex : string)
    (now insert_time : Z) (site site' : Site FS Drive) (body : UploadBody)
    (later : Z) :
  upload_image makedirs write_file drive_upload_file secure_filename path_join
    commit_fault UPLOAD_FOLDER current_user request uuid_hex now insert_time
    site
  = (Reply201 body, site') →
  (∃ before after,
     get_upload_stats (uploads site) (u_id current_user) later = Ok200 before ∧
     get_upload_stats (uploads site') (u_id current_user) later = Ok200 after ∧
     total_uploads after = total_uploads before + 1 ∧
     workout_uploads after + diet_uploads after
     = workout_uploads before + diet_uploads before + 1 ∧
     google_drive_synced after
     = google_drive_synced before
       + match google_drive_id (upload_body_upload body) with
         | Some _ => 1
         | None => 0
         end) ∧
  (∀ other, other ≠ u_id current_user →
     get_upload_stats (uploads site') other later
     = get_upload_stats (uploads site) other later).
Proof.
  intros Hrun.
  assert (acceptable request) as Hyes.
  { destruct (acceptable_or_not request) as [Hyes|Hno]; [done|].
    destruct (upload_image_rejected makedirs write_file drive_upload_file
                secure_filename path_join commit_fault UPLOAD_FOLDER
                current_user request uuid_hex now insert_time site Hno)
      as [error Hrejected].
    congruence. }
  destruct (upload_image_accepted makedirs write_file drive_upload_file
              secure_filename path_join commit_fault UPLOAD_FOLDER
              current_user request uuid_hex now insert_time site Hyes)
    as (file & stem & extension & Hfile & Hsplit & Hext & Hvalue).
  rewrite Hvalue in Hrun. clear Hvalue.
  destruct Hyes as (file' & Hfile' & _ & _ & Htype & _).
  destruct (makedirs _ _) as [disk1 [e1|]]; [done|].
  destruct (write_file _ _ _) as [disk2 [e2|]]; [done|].
  destruct (drive_upload_file _ _ _) as [drive' outcome]. cbv zeta in Hrun.
  destruct (commit_fault _) as [e|]; [done|].
  injection Hrun as <- <-. cbn [uploads upload_body_upload].
  set (upload_type := default "workout"%string (request_type request)) in *.
  set (row := mkUpload _ _ _ _ _ _ _ _ _).
  split.
  - unfold get_upload_stats. rewrite !guarded_percentage_value. simpl.
    eexists _, _. split; [done|]. split; [done|]. simpl.
    rewrite !count_uploads_snoc. simpl.
    rewrite (decide_True (P := u_id current_user = u_id current_user)) by done.
    split; [done|]. split.
    + rewrite !elem_of_cons in Htype.
      destruct Htype as [Htype|[Htype|Hnil]];
        [| |by apply elem_of_nil in Hnil]; rewrite Htype.
      * rewrite decide_True by done.
        rewrite decide_False by (by intros [_ ?]). lia.
      * rewrite decide_False by (by intros [_ ?]).
        rewrite decide_True by done. lia.
    + destruct (drive_file_id <$> _) as [file_id|].
      * by rewrite decide_True.
      * by rewrite decide_False by (by intros [_ ?]).
  - intros other Hother. unfold get_upload_stats.
    rewrite !count_uploads_snoc. simpl.
    assert (u_id current_user ≠ other) as Hne by (by intros ?).
    repeat match goal with
           | |- context [decide ?P] => rewrite (decide_False (P := P)) by tauto
           end.
    by rewrite !Z.add_0_r.
Qed.

Lemma recorded_upload_counts_once_witness :
  ∃ body site',
    upload_image example_makedirs example_write_file example_drive_upload
      example_secure_filename example_path_join example_commit "uploads"
      example_user example_request "c0ffee" 2000 2001 example_site
    = (Reply201 body, site') ∧
    ∃ before after,
      get_upload_stats (uploads example_site) 1 5000 = Ok200 before ∧
      get_upload_stats (uploads site') 1 5000 = Ok200 after ∧
      total_uploads after = total_uploads before + 1.
Proof.
  eexists _, _. split; [by vm_compute|].
  destruct (recorded_upload_counts_once example_makedirs example_write_file
              example_drive_upload example_secure_filename example_path_join
              example_commit "uploads" example_user example_request "c0ffee"
              2000 2001 example_site _ _ 5000 eq_refl)
    as [(before & after & Hbefore & Hafter & Htotal & _) _].
  exists before, after. split; [exact Hbefore|]. split; [exact Hafter|].
  exact Htotal.
Defined.

(** X19.  [upload_image] and [delete_upload]: deleting an upload undoes its
    record.  After a 201, the caller's delete of the id the answer names
    finds that row and no other: the answer is 200 and the table is the one
    from before the upload, or 500 with the row still there when the commit
    raises; it is never 404.  When the commit of the old table raises
    nothing, the answer is 200. *)
Theorem delete_undoes_upload {FS Drive : Type}
    (makedirs : string → FS → FS * option Exception)
    (write_file : string → string → FS → FS * option Exception)
    (drive_upload_file :
       DriveUpload → FS → Drive → Drive * result (option DriveFile))
    (secure_filename : string → string) (path_join : string → string → string)
    (path_exists : string → FS → result bool)
    (remove_file : string → FS → FS * option Exception)
    (drive_delete_file : string → Drive → Drive * result bool)
    (commit_fault : list Upload → option Exception) (UPLOAD_FOLDER : string)
    (current_user : User) (request : UploadRequest) (uuid_hex : string)
    (now insert_time : Z) (site site1 : Site FS Drive) (body : UploadBody) :
  upload_image makedirs write_file drive_upload_file secure_filename path_join
    commit_fault UPLOAD_FOLDER current_user request uuid_hex now insert_time
    site
  = (Reply201 body, site1) →
  ∃ reply site2,
    delete_upload path_exists remove_file drive_delete_file commit_fault
      (u_id current_user) (up_id (upload_body_upload body)) site1
    = (reply, site2) ∧
    match reply with
    | Reply200 _ => uploads site2 = uploads site
    | Reply500 _ => uploads site2 = uploads site1
    | _ => False
    end ∧
    (commit_fault (uploads site) = None → ∃ message, reply = Reply200 message).
Proof.
  intros Hrun.
  assert (acceptable request) as Hyes.
  { destruct (acceptable_or_not request) as [Hyes|Hno]; [done|].
    destruct (upload_image_rejected makedirs write_file drive_upload_file
                secure_filename path_join commit_fault UPLOAD_FOLDER
                current_user request uuid_hex now insert_time site Hno)
      as [error Hrejected].
    congruence. }
  destruct (upload_image_accepted makedirs write_file drive_upload_file
              secure_filename path_join commit_fault UPLOAD_FOLDER
              current_user request uuid_hex now insert_time site Hyes)
    as (file & stem & extension & Hfile & Hsplit & Hext & Hvalue).
  rewrite Hvalue in Hrun. clear Hvalue.
  destruct (makedirs _ _) as [disk1 [e1|]]; [done|].
  destruct (write_file _ _ _) as [disk2 [e2|]]; [done|].
  destruct (drive_upload_file _ _ _) as [drive' outcome]. cbv zeta in Hrun.
  destruct (commit_fault _) as [e|]; [done|].
  injection Hrun as <- <-. cbn [upload_body_upload up_id].
  set (row := mkUpload _ _ _ _ _ _ _ _ _).
  set (site1 := mkSite _ _ _).
  assert (list_find (targeted (u_id current_user) (next_upload_id (uploads site)))
            (uploads site1)
          = Some (length (uploads site), row)) as Hfind.
  { apply list_find_Some. split_and!.
    - unfold site1. cbn [uploads]. by rewrite list_lookup_middle.
    - done.
    - intros j y Hj Hlt [Hid _].
      unfold site1 in Hj. cbn [uploads] in Hj.
      rewrite lookup_app_l in Hj by done.
      apply list_elem_of_lookup_2, next_upload_id_fresh in Hj. lia. }
  destruct (delete_upload_found commit_fault path_exists remove_file
              drive_delete_file (u_id current_user)
              (next_upload_id (uploads site)) site1 _ _ Hfind)
    as (disk' & drive'' & ->).
  assert (delete (length (uploads site)) (uploads site1) = uploads site)
    as Hdelete.
  { unfold site1. cbn [uploads]. by rewrite delete_middle, app_nil_r. }
  rewrite Hdelete.
  destruct (commit_fault (uploads site)) as [e|]; eexists _, _;
    (split; [done|]); simpl; split; try done.
  intros _. by eexists.
Qed.

Lemma delete_undoes_upload_witness :
  ∃ body site1,
    upload_image example_makedirs example_write_file example_drive_upload
      example_secure_filename example_path_join example_commit "uploads"
      example_user example_request "c0ffee" 2000 2001 example_site
    = (Reply201 body, site1) ∧
    ∃ message site2,
      delete_upload example_path_exists example_remove_file
        example_drive_delete example_commit 1 (up_id (upload_body_upload body))
        site1
      = (Reply200 message, site2) ∧
      uploads site2 = uploads example_site.
Proof.
  eexists _, _. split; [by vm_compute|].
  destruct (delete_undoes_upload example_makedirs example_write_file
              example_drive_upload example_secure_filename example_path_join
              example_path_exists example_remove_file example_drive_delete
              example_commit "uploads" example_user example_request "c0ffee"
              2000 2001 example_site _ _ eq_refl)
    as (reply & site2 & Hrun & Hrows & Hreply).
  destruct (Hreply eq_refl) as [message ->].
  exists message, site2. split; [exact Hrun|exact Hrows].
Defined.
